(** * A shallow embedding of the user-account core

  Layers follow the repository: [domain] (entities, value objects, domain
  services), [application] (use cases), [infrastructure] (repository
  adapter, event publisher).  Python exceptions become the [Raise] branch
  of [outcome]; mutable collaborators (the user table, the publisher) are
  threaded as explicit state.

  Strings are sequences of code points below 256; [str.lower],
  [str.strip] and the two regular expressions are written out for that
  range. *)

From Stdlib Require Import ZArith NArith String Ascii List Bool Lia DecimalString.
From stdpp Require Import base option list gmap strings.

Open Scope string_scope.
Open Scope list_scope.
Open Scope Z_scope.

(* ===================================================================== *)
(** ** Python strings *)
(* ===================================================================== *)

Module Str.

Definition code (c : ascii) : N := N_of_ascii c.

Definition between (lo hi : N) (c : ascii) : bool :=
  ((lo <=? code c) && (code c <=? hi))%N.

Definition is_upper_ascii (c : ascii) : bool := between 65 90 c.
Definition is_lower_ascii (c : ascii) : bool := between 97 122 c.
Definition is_digit (c : ascii) : bool := between 48 57 c.

(** [str.isspace] on code points 0..255: TAB..CR, FS..US, SPACE, NEL, NBSP. *)
Definition is_space (c : ascii) : bool :=
  between 9 13 c || between 28 32 c || (code c =? 133)%N || (code c =? 160)%N.

(** [str.lower] on one code point: A-Z, and the Latin-1 capitals
    0xC0..0xDE except the multiplication sign 0xD7. *)
Definition lower_char (c : ascii) : ascii :=
  if is_upper_ascii c || (between 192 222 c && negb (code c =? 215)%N)
  then ascii_of_N (code c + 32)
  else c.

Fixpoint lower (s : string) : string :=
  match s with
  | EmptyString => EmptyString
  | String c s' => String (lower_char c) (lower s')
  end.

Fixpoint lstrip (s : string) : string :=
  match s with
  | EmptyString => EmptyString
  | String c s' => if is_space c then lstrip s' else s
  end.

Fixpoint rstrip (s : string) : string :=
  match s with
  | EmptyString => EmptyString
  | String c s' =>
      match rstrip s' with
      | EmptyString => if is_space c then EmptyString else String c EmptyString
      | r => String c r
      end
  end.

Definition strip (s : string) : string := lstrip (rstrip s).

(** Truthiness of a [str]: non-empty. *)
Definition truthy (s : string) : bool :=
  match s with EmptyString => false | _ => true end.

Fixpoint startswith (p s : string) : bool :=
  match p, s with
  | EmptyString, _ => true
  | String a p', String b s' => Ascii.eqb a b && startswith p' s'
  | String _ _, EmptyString => false
  end.

(** [needle in hay]. *)
Fixpoint contains (needle hay : string) : bool :=
  startswith needle hay ||
  match hay with
  | EmptyString => false
  | String _ hay' => contains needle hay'
  end.

(** [str(n)] for an integer. *)
Definition of_Z (n : Z) : string := NilZero.string_of_int (Z.to_int n).

End Str.

(* ===================================================================== *)
(** ** Regular expressions ([re.match] with a [^...$] pattern) *)
(* ===================================================================== *)

Module Re.

Inductive regex : Type :=
| Void
| Eps
| Cls (p : ascii -> bool)
| Seq (r1 r2 : regex)
| Alt (r1 r2 : regex)
| Star (r : regex).

Definition Plus (r : regex) : regex := Seq r (Star r).
Definition Lit (c : ascii) : regex := Cls (Ascii.eqb c).

Fixpoint nullable (r : regex) : bool :=
  match r with
  | Void => false
  | Eps => true
  | Cls _ => false
  | Seq r1 r2 => nullable r1 && nullable r2
  | Alt r1 r2 => nullable r1 || nullable r2
  | Star _ => true
  end.

Fixpoint deriv (c : ascii) (r : regex) : regex :=
  match r with
  | Void => Void
  | Eps => Void
  | Cls p => if p c then Eps else Void
  | Seq r1 r2 =>
      if nullable r1
      then Alt (Seq (deriv c r1) r2) (deriv c r2)
      else Seq (deriv c r1) r2
  | Alt r1 r2 => Alt (deriv c r1) (deriv c r2)
  | Star r1 => Seq (deriv c r1) (Star r1)
  end.

Fixpoint fullmatch (r : regex) (s : string) : bool :=
  match s with
  | EmptyString => nullable r
  | String c s' => fullmatch (deriv c r) s'
  end.

(** Drop one final line feed, if there is one. *)
Fixpoint chomp (s : string) : option string :=
  match s with
  | EmptyString => None
  | String c EmptyString => if (Str.code c =? 10)%N then Some EmptyString else None
  | String c s' => option_map (String c) (chomp s')
  end.

(** [re.match("^r$", s)]: without MULTILINE, [$] matches at the end of the
    string and also just before a line feed that ends the string. *)
Definition match_anchored (r : regex) (s : string) : bool :=
  fullmatch r s ||
  match chomp s with
  | Some s' => fullmatch r s'
  | None => false
  end.

(** What it means for a string to match, stated without derivatives. *)
Inductive Matches : regex -> string -> Prop :=
| M_Eps : Matches Eps ""
| M_Cls (p : ascii -> bool) (c : ascii) : p c = true -> Matches (Cls p) (String c "")
| M_Seq (r1 r2 : regex) (s1 s2 : string) :
    Matches r1 s1 -> Matches r2 s2 -> Matches (Seq r1 r2) (s1 +:+ s2)
| M_AltL (r1 r2 : regex) (s : string) : Matches r1 s -> Matches (Alt r1 r2) s
| M_AltR (r1 r2 : regex) (s : string) : Matches r2 s -> Matches (Alt r1 r2) s
| M_StarNil (r : regex) : Matches (Star r) ""
| M_StarApp (r : regex) (s1 s2 : string) :
    Matches r s1 -> Matches (Star r) s2 -> Matches (Star r) (s1 +:+ s2).

End Re.

(* ===================================================================== *)
(** ** Exceptions and results *)
(* ===================================================================== *)

(** A [dict] with string keys and values, as the literals in the source
  build it ([{}], [{"field": ...}]). *)
Definition dict : Type := list (string * string).

(** domain/shared/exceptions.py *)
Inductive DomainErrorKind : Type :=
| EntityNotFoundError
| BusinessRuleViolationError
| InvalidValueError.

(** application/shared/exceptions.py *)
Inductive ApplicationErrorKind : Type :=
| ValidationError
| NotFoundError
| UnauthorizedError
| ConflictError.

(** The exception classes that the modelled code raises or lets through.
  All of them derive from Python's [Exception] but the last one, which
  stands for an instance of a class that derives from [BaseException] only
  ([KeyboardInterrupt], [SystemExit], [GeneratorExit]) and that a callable
  handed to the program may raise. *)
Inductive exn : Type :=
| ValueError (msg : string)
| AttributeError (cls attr : string)
| TypeError (msg : string)
| DomainException (k : DomainErrorKind) (message : string) (details : dict)
| ApplicationError (k : ApplicationErrorKind) (message : string) (extra : dict)
| DRFValidationError (detail : string)
| DjangoValidationError (msg : string)
| DoesNotExist
| MultipleObjectsReturned
| BaseExceptionOnly (cls : string).

(** [isinstance(e, Exception)]: what an [except Exception] clause catches. *)
Definition is_exception (e : exn) : bool :=
match e with BaseExceptionOnly _ => false | _ => true end.

Inductive outcome (A : Type) : Type :=
| Return (a : A)
| Raise (e : exn).
Arguments Return {A} a.
Arguments Raise {A} e.

Definition is_application_error (e : exn) : bool :=
match e with ApplicationError _ _ _ => true | _ => false end.

Definition is_domain_exception (e : exn) : bool :=
match e with DomainException _ _ _ => true | _ => false end.

(** Exceptions without state. *)
Definition obind {A B} (m : outcome A) (k : A -> outcome B) : outcome B :=
match m with
| Return a => k a
| Raise e => Raise e
end.

Notation "'try!' x ':=' m 'in' k" := (obind m (fun x => k))
  (at level 10, x name, m at level 100, k at level 200).

(* ===================================================================== *)
(** ** Domain layer: value objects (domain/user/value_objects.py) *)
(* ===================================================================== *)

Module ValueObjects.

(** [[a-zA-Z0-9_]] *)
Definition word_char (c : ascii) : bool :=
  Str.is_lower_ascii c || Str.is_upper_ascii c || Str.is_digit c ||
  Ascii.eqb c "_".

(** [[a-zA-Z0-9._%+-]] *)
Definition local_char (c : ascii) : bool :=
  Str.is_lower_ascii c || Str.is_upper_ascii c || Str.is_digit c ||
  Ascii.eqb c "." || Ascii.eqb c "_" || Ascii.eqb c "%" ||
  Ascii.eqb c "+" || Ascii.eqb c "-".

(** [[a-zA-Z0-9.-]] *)
Definition domain_char (c : ascii) : bool :=
  Str.is_lower_ascii c || Str.is_upper_ascii c || Str.is_digit c ||
  Ascii.eqb c "." || Ascii.eqb c "-".

(** [[a-zA-Z]] *)
Definition alpha_char (c : ascii) : bool :=
  Str.is_lower_ascii c || Str.is_upper_ascii c.

(** [^[a-zA-Z0-9_]+( [a-zA-Z0-9_]+)*$] *)
Definition username_pattern : Re.regex :=
  Re.Seq (Re.Plus (Re.Cls word_char))
         (Re.Star (Re.Seq (Re.Lit " ") (Re.Plus (Re.Cls word_char)))).

(** [^[a-zA-Z0-9._%+-]+@[a-zA-Z0-9.-]+\.[a-zA-Z]{2,}$] *)
Definition email_pattern : Re.regex :=
  Re.Seq (Re.Plus (Re.Cls local_char))
    (Re.Seq (Re.Lit "@")
      (Re.Seq (Re.Plus (Re.Cls domain_char))
        (Re.Seq (Re.Lit ".")
          (Re.Seq (Re.Cls alpha_char)
            (Re.Seq (Re.Cls alpha_char) (Re.Star (Re.Cls alpha_char))))))).

Record Email : Type := mkEmail { email_value : string }.
Record Username : Type := mkUsername { username_value : string }.

(** [Email(value)]: the dataclass constructor followed by [__post_init__]. *)
Definition Email_new (value : string) : outcome Email :=
  if negb (Str.truthy value) then Raise (ValueError "Email cannot be empty")
  else if negb (Re.match_anchored email_pattern value)
  then Raise (ValueError "Invalid email format")
  else Return (mkEmail (Str.strip (Str.lower value))).

(** [Username(value)]. *)
Definition Username_new (value : string) : outcome Username :=
  if negb (Str.truthy value) then Raise (ValueError "Username cannot be empty")
  else if negb (Re.match_anchored username_pattern value)
  then Raise (ValueError "Invalid username format")
  else Return (mkUsername value).

End ValueObjects.

(* ===================================================================== *)
(** ** Ambient readings *)
(* ===================================================================== *)

(** What one call reads from its surroundings: the clock
    ([datetime.utcnow()], [datetime.now()], [timezone.now()]) and the random
    identifier ([uuid.uuid4()]).  Every call of the repository or of a use
    case takes readings of its own, so statements about two calls give each
    its [Env].  The readings that one call takes at several places are not
    told apart; the general statements below speak of views and rows and
    leave the instants that a call stamps open. *)
Record Env : Type := mkEnv {
  utcnow : Z;
  uuid4 : string
}.

(** Truthiness of an identifier ([if entity.id:]): [None] and [0] are false. *)
Definition id_truthy (i : option Z) : bool :=
  match i with
  | Some z => negb (z =? 0)
  | None => false
  end.

(* ===================================================================== *)
(** ** Domain layer: entities (domain/shared/entities.py,
       domain/user/entities.py) *)
(* ===================================================================== *)

(** The fields of the [User] dataclass, the three keyword-only fields of
    [DomainEntity] first.  [u_phone_number] is not a dataclass field: it is
    the instance attribute that [UpdateUserUseCase] may assign; [None]
    means the instance has no such attribute. *)
Record User : Type := mkUser {
  u_id : option Z;
  u_created_at : option Z;
  u_updated_at : Z;
  u_username : string;
  u_email : string;
  u_first_name : option string;
  u_last_name : option string;
  u_is_active : bool;
  u_is_staff : bool;
  u_is_admin : bool;
  u_is_superuser : bool;
  u_password : option string;
  u_phone_number : option (option string)
}.

Definition set_email (user : User) (v : string) : User :=
  mkUser (u_id user) (u_created_at user) (u_updated_at user) (u_username user)
    v (u_first_name user) (u_last_name user) (u_is_active user)
    (u_is_staff user) (u_is_admin user) (u_is_superuser user) (u_password user)
    (u_phone_number user).

Definition set_first_name (user : User) (v : option string) : User :=
  mkUser (u_id user) (u_created_at user) (u_updated_at user) (u_username user)
    (u_email user) v (u_last_name user) (u_is_active user)
    (u_is_staff user) (u_is_admin user) (u_is_superuser user) (u_password user)
    (u_phone_number user).

Definition set_last_name (user : User) (v : option string) : User :=
  mkUser (u_id user) (u_created_at user) (u_updated_at user) (u_username user)
    (u_email user) (u_first_name user) v (u_is_active user)
    (u_is_staff user) (u_is_admin user) (u_is_superuser user) (u_password user)
    (u_phone_number user).

Definition set_phone_number (user : User) (v : option string) : User :=
  mkUser (u_id user) (u_created_at user) (u_updated_at user) (u_username user)
    (u_email user) (u_first_name user) (u_last_name user) (u_is_active user)
    (u_is_staff user) (u_is_admin user) (u_is_superuser user) (u_password user)
    (Some v).

(** [User.__post_init__], run by the generated [__init__] on the freshly
    stored fields.  It replaces [DomainEntity.__post_init__] (no [super()]
    call). *)
Definition User___post_init__ (self : User) : outcome User :=
  if negb (Str.truthy (u_username self)) then Raise (ValueError "Username is required")
  else if negb (Str.truthy (u_email self)) then Raise (ValueError "Email is required")
  else
    let self := set_email self (Str.strip (Str.lower (u_email self))) in
    if negb (Re.match_anchored ValueObjects.username_pattern (u_username self))
    then Raise (ValueError "Invalid username format")
    else Return self.

(** [User(...)]: the caller writes out every field, defaults included
    ([created_at] and [updated_at] default to [utcnow()], [is_active] to
    [True], the other flags to [False], the names and [password] to
    [None]). *)
Definition User_new (fields : User) : outcome User := User___post_init__ fields.

(** Attribute lookups on a [User] instance that the callers perform.
    [check_password] is defined neither by [User] nor by [DomainEntity]. *)
Definition User_check_password (self : User) (raw : string) : outcome bool :=
  Raise (AttributeError "User" "check_password").

Definition User_get_phone_number (self : User) : outcome (option string) :=
  match u_phone_number self with
  | Some v => Return v
  | None => Raise (AttributeError "User" "phone_number")
  end.

Definition set_is_active (user : User) (v : bool) : User :=
  mkUser (u_id user) (u_created_at user) (u_updated_at user) (u_username user)
    (u_email user) (u_first_name user) (u_last_name user) v
    (u_is_staff user) (u_is_admin user) (u_is_superuser user) (u_password user)
    (u_phone_number user).

Definition set_is_admin (user : User) (v : bool) : User :=
  mkUser (u_id user) (u_created_at user) (u_updated_at user) (u_username user)
    (u_email user) (u_first_name user) (u_last_name user) (u_is_active user)
    (u_is_staff user) v (u_is_superuser user) (u_password user)
    (u_phone_number user).

(** The four methods of [User]. *)
Module UserMethods.

Definition activate (self : User) : User := set_is_active self true.

Definition deactivate (self : User) : User := set_is_active self false.

Definition promote_to_admin (self : User) : User := set_is_admin self true.

Definition demote_from_admin (self : User) : User := set_is_admin self false.

End UserMethods.

(** An instance of a concrete entity class.  [User] is the only one the
    program can build: importing domain/authentication/entities.py stops
    with [TypeError] at the class statement of [Session], whose re-declared
    [id] with a default comes before the field [user_id] without one, so
    neither class of that module is ever available. *)
Inductive Entity : Type :=
| UserObj (u : User).

Inductive EntityClass : Type := User_cls.

Definition class_of (e : Entity) : EntityClass :=
  match e with
  | UserObj _ => User_cls
  end.

Definition entity_id (e : Entity) : option Z :=
  match e with
  | UserObj u => u_id u
  end.

#[global] Instance EntityClass_eq_dec : EqDecision EntityClass.
Proof. solve_decision. Defined.
#[global] Instance User_eq_dec : EqDecision User.
Proof. solve_decision. Defined.

(** [isinstance(other, self.__class__)]: no concrete entity class derives
    from another one. *)
Definition isinstance_of_class_of (other self : Entity) : bool :=
  bool_decide (class_of other = class_of self).

(** [DomainEntity.__eq__] and [DomainEntity.__hash__] as the base class
    writes them. *)
Definition DomainEntity___eq__ (self other : Entity) : bool :=
  if negb (isinstance_of_class_of other self) then false
  else bool_decide (entity_id self = entity_id other).

(** [hash] is Python's builtin on identifiers. *)
Definition DomainEntity___hash__ (hash : option Z -> Z) (self : Entity) : outcome Z :=
  Return (hash (entity_id self)).

(** What [@dataclass] adds to a class whose own body defines no [__eq__]:
    with the defaults [eq=True, frozen=False] it generates an [__eq__] that
    compares the instances field by field when they have the same class and
    answers [NotImplemented] otherwise, and it sets [__hash__] to [None].
    [User] is decorated this way and its body defines neither [__eq__] nor
    [__hash__], so these generated methods shadow the ones inherited from
    [DomainEntity].  [u_phone_number] is not a field and takes no part. *)
Definition user_fields_eq (a b : User) : bool :=
  bool_decide (u_id a = u_id b) && bool_decide (u_created_at a = u_created_at b) &&
  bool_decide (u_updated_at a = u_updated_at b) &&
  bool_decide (u_username a = u_username b) && bool_decide (u_email a = u_email b) &&
  bool_decide (u_first_name a = u_first_name b) &&
  bool_decide (u_last_name a = u_last_name b) &&
  Bool.eqb (u_is_active a) (u_is_active b) && Bool.eqb (u_is_staff a) (u_is_staff b) &&
  Bool.eqb (u_is_admin a) (u_is_admin b) &&
  Bool.eqb (u_is_superuser a) (u_is_superuser b) &&
  bool_decide (u_password a = u_password b).

Definition dataclass___eq__ (self other : Entity) : option bool :=
  match self, other with
  | UserObj a, UserObj b => Some (user_fields_eq a b)
  end.

(** [self == other] between two entity instances: the class's [__eq__]; on
    [NotImplemented] from both sides Python compares identities, which
    differ for instances of different classes. *)
Definition Entity_eq (self other : Entity) : bool :=
  match dataclass___eq__ self other with
  | Some b => b
  | None =>
      match dataclass___eq__ other self with
      | Some b => b
      | None => false
      end
  end.

(** [hash(self)]: the class attribute [__hash__] is [None]. *)
Definition Entity_hash (self : Entity) : outcome Z :=
  Raise (TypeError "unhashable type").

(* ===================================================================== *)
(** ** Domain events (domain/shared/events.py, domain/user/events.py) *)
(* ===================================================================== *)

Inductive EventType : Type :=
| UserCreatedEvent_cls
| UserUpdatedEvent_cls
| UserActivatedEvent_cls
| UserDeactivatedEvent_cls
| PasswordChangedEvent_cls.

(** The keyword-only fields of [DomainEvent]. *)
Record EventBase : Type := mkEventBase {
  event_id : string;
  occurred_at : Z;
  aggregate_id : option Z
}.

Inductive DomainEvent : Type :=
| UserCreatedEvent (base : EventBase) (username email : string)
| UserUpdatedEvent (base : EventBase) (user_id : option Z) (updated_fields : list string)
| UserActivatedEvent (base : EventBase) (user_id : option Z)
| UserDeactivatedEvent (base : EventBase) (user_id : option Z)
| PasswordChangedEvent (base : EventBase) (user_id : option Z).

(** [type(event)] *)
Definition type_of (event : DomainEvent) : EventType :=
  match event with
  | UserCreatedEvent _ _ _ => UserCreatedEvent_cls
  | UserUpdatedEvent _ _ _ => UserUpdatedEvent_cls
  | UserActivatedEvent _ _ => UserActivatedEvent_cls
  | UserDeactivatedEvent _ _ => UserDeactivatedEvent_cls
  | PasswordChangedEvent _ _ => PasswordChangedEvent_cls
  end.

(** [cls.__name__] *)
Definition class_name (t : EventType) : string :=
  match t with
  | UserCreatedEvent_cls => "UserCreatedEvent"
  | UserUpdatedEvent_cls => "UserUpdatedEvent"
  | UserActivatedEvent_cls => "UserActivatedEvent"
  | UserDeactivatedEvent_cls => "UserDeactivatedEvent"
  | PasswordChangedEvent_cls => "PasswordChangedEvent"
  end.

(** The base fields as the default factories fill them in. *)
Definition new_base (env : Env) (aggregate : option Z) : EventBase :=
  mkEventBase (uuid4 env) (utcnow env) aggregate.

#[global] Instance EventType_eq_dec : EqDecision EventType.
Proof. solve_decision. Defined.

Definition EventType_to_nat (t : EventType) : nat :=
  match t with
  | UserCreatedEvent_cls => 0
  | UserUpdatedEvent_cls => 1
  | UserActivatedEvent_cls => 2
  | UserDeactivatedEvent_cls => 3
  | PasswordChangedEvent_cls => 4
  end.

Definition EventType_of_nat (n : nat) : option EventType :=
  match n with
  | 0%nat => Some UserCreatedEvent_cls
  | 1%nat => Some UserUpdatedEvent_cls
  | 2%nat => Some UserActivatedEvent_cls
  | 3%nat => Some UserDeactivatedEvent_cls
  | 4%nat => Some PasswordChangedEvent_cls
  | _ => None
  end.

#[global] Instance EventType_countable : Countable EventType.
Proof.
  apply (inj_countable EventType_to_nat EventType_of_nat).
  intros t; destruct t; reflexivity.
Defined.

(* ===================================================================== *)
(** ** Application layer: DTOs (application/shared/dtos.py) *)
(* ===================================================================== *)

Record UserDTO : Type := mkUserDTO {
  dto_id : option Z;
  dto_username : string;
  dto_email : string;
  dto_first_name : option string;
  dto_last_name : option string;
  dto_is_active : bool;
  dto_is_staff : bool;
  dto_is_admin : bool;
  dto_is_superuser : bool
}.

Record UserCreateDTO : Type := mkUserCreateDTO {
  c_username : string;
  c_email : string;
  c_password : string;
  c_first_name : option string;
  c_last_name : option string
}.

Record UserUpdateDTO : Type := mkUserUpdateDTO {
  up_first_name : option string;
  up_last_name : option string;
  up_email : option string
}.

Record AuthenticationResultDTO : Type := mkAuthenticationResultDTO {
  r_user : UserDTO;
  r_access_token : option string;
  r_refresh_token : option string;
  r_session_key : option string
}.

(** [user_data.phone_number]: the dataclass declares [first_name],
    [last_name] and [email] only. *)
Definition UserUpdateDTO_get_phone_number (user_data : UserUpdateDTO) : outcome (option string) :=
  Raise (AttributeError "UserUpdateDTO" "phone_number").

(** [_to_dto] / [_user_to_dto], the same static method in every use case. *)
Definition _to_dto (user : User) : UserDTO :=
  mkUserDTO (u_id user) (u_username user) (u_email user) (u_first_name user)
    (u_last_name user) (u_is_active user) (u_is_staff user) (u_is_admin user)
    (u_is_superuser user).

(* ===================================================================== *)
(** ** The Django side: model instances, the table, the framework *)
(* ===================================================================== *)

(** An instance of the Django model [src.users.models.User] with the
    attributes that the adapter reads and writes.  [dj_id] is [None] until
    the first [save()]; [dj_password] is the encoded credential;
    [dj_date_joined] is [None] when the attribute is missing or unset;
    [dj_phone_number] is meaningful only when the model has that column. *)
Record DjangoUser : Type := mkDjangoUser {
  dj_id : option Z;
  dj_username : string;
  dj_email : string;
  dj_first_name : string;
  dj_last_name : string;
  dj_is_active : bool;
  dj_is_staff : bool;
  dj_is_admin : bool;
  dj_is_superuser : bool;
  dj_password : string;
  dj_date_joined : option Z;
  dj_phone_number : option string
}.

(** The table behind [DjangoUser.objects], keyed by primary key, and the
    next key that an INSERT hands out. *)
Record Db : Type := mkDb {
  rows : gmap Z DjangoUser;
  next_id : Z
}.

(** What the adapter and the use cases call in Django and in the model
    module, which is not part of the modelled sources: whether the model has
    a [phone_number] attribute, what a new instance holds in [date_joined]
    (given the clock), the password hasher behind [set_password] and
    [check_password], the model's validators behind [full_clean()], the
    authentication backend behind [authenticate()], and the password policy
    behind [password_validation.validate_password]. *)
Record Django : Type := mkDjango {
  has_phone_number : bool;
  default_date_joined : Z -> option Z;
  make_password : option string -> string;
  check_password : string -> string -> bool;
  full_clean : Db -> DjangoUser -> outcome unit;
  authenticate : Db -> string -> string -> option DjangoUser;
  validate_password : string -> DjangoUser -> outcome unit
}.

Definition all_rows (db : Db) : list DjangoUser := (map_to_list (rows db)).*2.

(** [DjangoUser.objects.get(id=pk)] *)
Definition objects_get_id (db : Db) (pk : option Z) : outcome DjangoUser :=
  match pk with
  | Some k =>
      match rows db !! k with
      | Some r => Return r
      | None => Raise DoesNotExist
      end
  | None => Raise DoesNotExist
  end.

(** [DjangoUser.objects.get(<column>=value)] on a column that is not the
    primary key: exactly one match, or one of the two exceptions. *)
Definition objects_get_by (p : DjangoUser -> bool) (db : Db) : outcome DjangoUser :=
  match List.filter p (all_rows db) with
  | [] => Raise DoesNotExist
  | [r] => Return r
  | _ :: _ :: _ => Raise MultipleObjectsReturned
  end.

Definition with_id (r : DjangoUser) (k : Z) : DjangoUser :=
  mkDjangoUser (Some k) (dj_username r) (dj_email r) (dj_first_name r)
    (dj_last_name r) (dj_is_active r) (dj_is_staff r) (dj_is_admin r)
    (dj_is_superuser r) (dj_password r) (dj_date_joined r) (dj_phone_number r).

(** [django_user.set_password(raw)] *)
Definition set_password (dj : Django) (r : DjangoUser) (raw : option string) : DjangoUser :=
  mkDjangoUser (dj_id r) (dj_username r) (dj_email r) (dj_first_name r)
    (dj_last_name r) (dj_is_active r) (dj_is_staff r) (dj_is_admin r)
    (dj_is_superuser r) (make_password dj raw) (dj_date_joined r)
    (dj_phone_number r).

(** [django_user.save()]: UPDATE the row of an instance that has a primary
    key, INSERT under a fresh key otherwise. *)
Definition Model_save (db : Db) (r : DjangoUser) : DjangoUser * Db :=
  match dj_id r with
  | Some k => (r, mkDb (<[k := r]> (rows db)) (next_id db))
  | None =>
      let k := next_id db in
      let r' := with_id r k in
      (r', mkDb (<[k := r']> (rows db)) (k + 1))
  end.

(* ===================================================================== *)
(** ** Infrastructure: the repository adapter
       (infrastructure/persistence/user_repository.py) *)
(* ===================================================================== *)

Module DjangoUserRepository.

Definition _to_domain (env : Env) (django_user : DjangoUser) : outcome User :=
  User_new
    (mkUser (dj_id django_user)
            (dj_date_joined django_user)
            (utcnow env)
            (dj_username django_user)
            (dj_email django_user)
            (Some (dj_first_name django_user))
            (Some (dj_last_name django_user))
            (dj_is_active django_user)
            (dj_is_staff django_user)
            (dj_is_admin django_user)
            (dj_is_superuser django_user)
            None
            None).

(** [x or ""] on an optional string. *)
Definition or_empty (x : option string) : string :=
  match x with
  | Some s => s
  | None => ""
  end.

(** The assignment under [if hasattr(django_user, "phone_number")]. *)
Definition copy_phone_number (dj : Django) (domain_user : User) (django_user : DjangoUser)
  : outcome DjangoUser :=
  if has_phone_number dj then
    try! pn := User_get_phone_number domain_user in
    Return (mkDjangoUser (dj_id django_user) (dj_username django_user)
              (dj_email django_user) (dj_first_name django_user)
              (dj_last_name django_user) (dj_is_active django_user)
              (dj_is_staff django_user) (dj_is_admin django_user)
              (dj_is_superuser django_user) (dj_password django_user)
              (dj_date_joined django_user) pn)
  else Return django_user.

Definition _to_django (dj : Django) (env : Env) (db : Db) (domain_user : User)
  : outcome DjangoUser :=
  if id_truthy (u_id domain_user) then
    try! django_user := objects_get_id db (u_id domain_user) in
    let django_user :=
      mkDjangoUser (dj_id django_user)
        (u_username domain_user)
        (u_email domain_user)
        (or_empty (u_first_name domain_user))
        (or_empty (u_last_name domain_user))
        (u_is_active domain_user)
        (u_is_staff domain_user)
        (u_is_admin domain_user)
        (u_is_superuser domain_user)
        (dj_password django_user)
        (dj_date_joined django_user)
        (dj_phone_number django_user) in
    copy_phone_number dj domain_user django_user
  else
    (* a new model instance: no key and no credential yet *)
    let django_user :=
      mkDjangoUser None
        (u_username domain_user)
        (u_email domain_user)
        (or_empty (u_first_name domain_user))
        (or_empty (u_last_name domain_user))
        (u_is_active domain_user)
        (u_is_staff domain_user)
        (u_is_admin domain_user)
        (u_is_superuser domain_user)
        ""
        (default_date_joined dj (utcnow env))
        None in
    copy_phone_number dj domain_user django_user.

Definition get_by_id (env : Env) (db : Db) (entity_id : option Z) : outcome (option User) :=
  match objects_get_id db entity_id with
  | Return django_user =>
      try! user := _to_domain env django_user in Return (Some user)
  | Raise DoesNotExist => Return None
  | Raise e => Raise e
  end.

(** [hasattr(entity, "password")] holds for every [User]: [password] is a
    dataclass field, [None] by default. *)
Definition save (dj : Django) (env : Env) (db : Db) (entity : User) : outcome User * Db :=
  match _to_django dj env db entity with
  | Raise e => (Raise e, db)
  | Return django_user =>
      let django_user := set_password dj django_user (u_password entity) in
      match full_clean dj db django_user with
      | Raise e => (Raise e, db)
      | Return _ =>
          let '(django_user, db') := Model_save db django_user in
          (_to_domain env django_user, db')
      end
  end.

Definition get_by_username (env : Env) (db : Db) (username : string) : outcome (option User) :=
  match objects_get_by (fun r => String.eqb (dj_username r) username) db with
  | Return django_user =>
      try! user := _to_domain env django_user in Return (Some user)
  | Raise DoesNotExist => Return None
  | Raise e => Raise e
  end.

Definition get_by_email (env : Env) (db : Db) (email : string) : outcome (option User) :=
  match objects_get_by (fun r => String.eqb (dj_email r) (Str.lower email)) db with
  | Return django_user =>
      try! user := _to_domain env django_user in Return (Some user)
  | Raise DoesNotExist => Return None
  | Raise e => Raise e
  end.

(** [[self._to_domain(user) for user in django_users]]: the first
    constructor that raises ends the comprehension. *)
Fixpoint to_domain_all (env : Env) (django_users : list DjangoUser) : outcome (list User) :=
  match django_users with
  | [] => Return []
  | django_user :: rest =>
      try! user := _to_domain env django_user in
      try! users := to_domain_all env rest in
      Return (user :: users)
  end.

Definition get_all (env : Env) (db : Db) : outcome (list User) :=
  to_domain_all env (all_rows db).

(** [DjangoUser.objects.filter(id=entity.id).delete()] under [if entity.id:] *)
Definition delete (db : Db) (entity : User) : Db :=
  match u_id entity with
  | Some pk =>
      if id_truthy (u_id entity) then mkDb (base.delete pk (rows db)) (next_id db)
      else db
  | None => db
  end.

Definition exists_by_username (db : Db) (username : string) : bool :=
  existsb (fun r => String.eqb (dj_username r) username) (all_rows db).

Definition exists_by_email (db : Db) (email : string) : bool :=
  existsb (fun r => String.eqb (dj_email r) (Str.lower email)) (all_rows db).

Definition get_active_users (env : Env) (db : Db) : outcome (list User) :=
  to_domain_all env (List.filter dj_is_active (all_rows db)).

End DjangoUserRepository.

(* ===================================================================== *)
(** ** Domain services (domain/user/services.py,
       domain/authentication/services.py) *)
(* ===================================================================== *)

Module UserDomainService.

Import DjangoUserRepository.

(** [exclude_user_id and existing_user.id == exclude_user_id] *)
Definition is_excluded (existing_user : User) (exclude_user_id : option Z) : bool :=
  id_truthy exclude_user_id && bool_decide (u_id existing_user = exclude_user_id).

Definition is_email_unique (env : Env) (db : Db) (email : string)
    (exclude_user_id : option Z) : outcome bool :=
  try! existing_user := get_by_email env db email in
  match existing_user with
  | None => Return true
  | Some existing_user =>
      if is_excluded existing_user exclude_user_id then Return true
      else Return false
  end.

Definition is_username_unique (env : Env) (db : Db) (username : string)
    (exclude_user_id : option Z) : outcome bool :=
  try! existing_user := get_by_username env db username in
  match existing_user with
  | None => Return true
  | Some existing_user =>
      if is_excluded existing_user exclude_user_id then Return true
      else Return false
  end.

Definition business_rule_violation {A} (message : string) : outcome A :=
  Raise (DomainException BusinessRuleViolationError message []).

(** [try: ctor(value) except ValueError as e: raise
    BusinessRuleViolationError(prefix + str(e))] *)
Definition wrap_value_error {A} (prefix : string) (m : outcome A) : outcome A :=
  match m with
  | Raise (ValueError msg) => business_rule_violation (prefix +:+ msg)
  | other => other
  end.

Definition validate_user_creation (env : Env) (db : Db) (username email : string)
  : outcome unit :=
  try! _u := wrap_value_error "Invalid username: " (ValueObjects.Username_new username) in
  try! _e := wrap_value_error "Invalid email: " (ValueObjects.Email_new email) in
  try! username_free := is_username_unique env db username None in
  if negb username_free
  then business_rule_violation ("Username '" +:+ username +:+ "' is already taken")
  else
    try! email_free := is_email_unique env db email None in
    if negb email_free
    then business_rule_violation ("Email '" +:+ email +:+ "' is already taken")
    else Return tt.

End UserDomainService.

Module AuthenticationDomainService.

(** [password_hash] is not looked at: the source leaves the check of the
    credential to the application layer. *)
Definition authenticate_user (env : Env) (db : Db) (username password_hash : string)
  : outcome (option User) :=
  try! user := DjangoUserRepository.get_by_username env db username in
  match user with
  | None => Return None
  | Some user =>
      if negb (u_is_active user) then Return None
      else Return (Some user)
  end.

Definition can_user_authenticate (user : User) : bool := u_is_active user.

End AuthenticationDomainService.

(* ===================================================================== *)
(** ** Infrastructure: the event publisher
       (infrastructure/events/publisher.py) *)
(* ===================================================================== *)

(** One call of a subscriber, as the trace keeps it: the [__name__] of the
    callable, if it has one, and the event it was called with. *)
Definition Call : Type := (option string * DomainEvent)%type.

(** A subscriber is any callable.  [h_type] is the name of its class as
    Python prints it; [h_name] is its [__name__], which a plain function has
    and a [functools.partial] or an instance with [__call__] has not.  A
    call either returns or raises, and what it does may depend on the calls
    the subscribers have received before, since a callable may keep state. *)
Record Handler : Type := mkHandler {
  h_type : string;
  h_name : option string;
  h_call : DomainEvent -> list Call -> outcome unit
}.

(** [def name(event): ...] at module level. *)
Definition function_named (name : string) (body : DomainEvent -> outcome unit) : Handler :=
  mkHandler "function" (Some name) (fun event _ => body event).

Record InMemoryEventPublisher : Type := mkPublisher {
  _events : list DomainEvent;
  _subscribers_by_type : gmap EventType (list Handler);
  _all_subscribers : list Handler
}.

(** The publisher together with what its calls leave behind outside of it:
    the subscriber calls made so far, oldest first, and the records handed
    to [logger.error]. *)
Record Bus : Type := mkBus {
  publisher : InMemoryEventPublisher;
  invoked : list Call;
  logged : list string
}.

(** [str(e)] *)
Definition exn_str (e : exn) : string :=
  match e with
  | ValueError msg => msg
  | AttributeError cls attr =>
      "'" +:+ cls +:+ "' object has no attribute '" +:+ attr +:+ "'"
  | TypeError msg => msg
  | DomainException _ message _ => message
  | ApplicationError _ message _ => message
  | DRFValidationError detail => detail
  | DjangoValidationError msg => msg
  | DoesNotExist => ""
  | MultipleObjectsReturned => ""
  | BaseExceptionOnly _ => ""
  end.

Module InMemoryEventPublisher.

Definition __init__ : InMemoryEventPublisher := mkPublisher [] ∅ [].

(** The f-string handed to [logger.error]. *)
Definition error_record (name : string) (event : DomainEvent) (e : exn) : string :=
  "Error handling event " +:+ class_name (type_of event) +:+ " in " +:+
  name +:+ ": " +:+ exn_str e.

(** [try: subscriber(event) except Exception as e: logger.error(f"...")].
    The clause catches instances of [Exception] only, and the f-string is
    built inside it: it reads [subscriber.__name__], so a subscriber without
    that attribute replaces the caught exception by an [AttributeError] that
    leaves the method. *)
Definition _notify_subscriber (subscriber : Handler) (event : DomainEvent) (b : Bus)
  : outcome unit * Bus :=
  let called := mkBus (publisher b) (invoked b ++ [(h_name subscriber, event)]) (logged b) in
  match h_call subscriber event (invoked b) with
  | Return _ => (Return tt, called)
  | Raise e =>
      if is_exception e then
        match h_name subscriber with
        | Some name =>
            (Return tt,
             mkBus (publisher called) (invoked called)
               (logged called ++ [error_record name event e]))
        | None => (Raise (AttributeError (h_type subscriber) "__name__"), called)
        end
      else (Raise e, called)
  end.

(** [for subscriber in subscribers: body]: an exception that leaves the body
    ends the loop. *)
Fixpoint for_each (subscribers : list Handler)
    (body : Handler -> Bus -> outcome unit * Bus) (b : Bus) : outcome unit * Bus :=
  match subscribers with
  | [] => (Return tt, b)
  | subscriber :: rest =>
      match body subscriber b with
      | (Return _, b') => for_each rest body b'
      | (Raise e, b') => (Raise e, b')
      end
  end.

Definition publish (event : DomainEvent) (b : Bus) : outcome unit * Bus :=
  let p := publisher b in
  let b := mkBus (mkPublisher (_events p ++ [event]) (_subscribers_by_type p)
                    (_all_subscribers p))
             (invoked b) (logged b) in
  let event_type := type_of event in
  let typed :=
    match _subscribers_by_type (publisher b) !! event_type with
    | Some subscribers =>
        for_each subscribers (fun subscriber => _notify_subscriber subscriber event) b
    | None => (Return tt, b)
    end in
  match typed with
  | (Raise e, b') => (Raise e, b')
  | (Return _, b') =>
      for_each (_all_subscribers (publisher b'))
        (fun subscriber => _notify_subscriber subscriber event) b'
  end.

Definition subscribe (handler : Handler) (event_type : option EventType)
    (p : InMemoryEventPublisher) : InMemoryEventPublisher :=
  match event_type with
  | Some event_type =>
      let by_type :=
        match _subscribers_by_type p !! event_type with
        | Some _ => _subscribers_by_type p
        | None => <[event_type := []]> (_subscribers_by_type p)
        end in
      let current := default [] (by_type !! event_type) in
      mkPublisher (_events p) (<[event_type := current ++ [handler]]> by_type)
        (_all_subscribers p)
  | None =>
      mkPublisher (_events p) (_subscribers_by_type p) (_all_subscribers p ++ [handler])
  end.

Definition get_events (p : InMemoryEventPublisher) : list DomainEvent := _events p.

Definition clear_events (p : InMemoryEventPublisher) : InMemoryEventPublisher :=
  mkPublisher [] (_subscribers_by_type p) (_all_subscribers p).

End InMemoryEventPublisher.

(* ===================================================================== *)
(** ** Application layer: the use cases *)
(* ===================================================================== *)

(** What a use case works on: the table behind the repository, and the
    publisher it was built with ([None] when it was built without one). *)
Record World : Type := mkWorld {
  db : Db;
  bus : option Bus
}.

(** Computations that read and change the world and may raise. *)
Definition M (A : Type) : Type := World -> outcome A * World.

Definition ret {A} (a : A) : M A := fun w => (Return a, w).

Definition raise {A} (e : exn) : M A := fun w => (Raise e, w).

Definition bind {A B} (m : M A) (k : A -> M B) : M B :=
  fun w =>
    match m w with
    | (Return a, w') => k a w'
    | (Raise e, w') => (Raise e, w')
    end.

Notation "'let!' x ':=' m 'in' k" := (bind m (fun x => k))
  (at level 10, x name, m at level 100, k at level 200).

(** A call that only reads the table. *)
Definition query {A} (f : Db -> outcome A) : M A := fun w => (f (db w), w).

(** A call that only raises or returns. *)
Definition lift {A} (m : outcome A) : M A := fun w => (m, w).

(** [self._user_repository.save(entity)] *)
Definition repository_save (dj : Django) (env : Env) (entity : User) : M User :=
  fun w =>
    let '(r, db') := DjangoUserRepository.save dj env (db w) entity in
    (r, mkWorld db' (bus w)).

(** [if self._event_publisher: self._event_publisher.publish(event)] *)
Definition publish_if_wired (event : DomainEvent) : M unit :=
  fun w =>
    match bus w with
    | Some b =>
        let '(r, b') := InMemoryEventPublisher.publish event b in
        (r, mkWorld (db w) (Some b'))
    | None => (Return tt, w)
    end.

(** The events in the publisher's history. *)
Definition published (w : World) : list DomainEvent :=
  match bus w with
  | Some b => _events (publisher b)
  | None => []
  end.

(** *** application/user/use_cases.py *)

Definition not_found (user_id : Z) : exn :=
  ApplicationError NotFoundError ("User with ID " +:+ Str.of_Z user_id +:+ " not found") [].

Module CreateUserUseCase.

(** The [except BusinessRuleViolationError as e] clause. *)
Definition translate (e : exn) : exn :=
  match e with
  | DomainException BusinessRuleViolationError message details =>
      if Str.contains "already taken" message
      then ApplicationError ConflictError message
             [("field", if Str.contains "Username" message then "username" else "email")]
      else ApplicationError ValidationError message details
  | other => other
  end.

Definition execute (dj : Django) (env : Env) (user_data : UserCreateDTO) : M UserDTO :=
  fun w =>
    match UserDomainService.validate_user_creation env (db w)
            (c_username user_data) (c_email user_data) with
    | Raise e => (Raise (translate e), w)
    | Return _ =>
        (let! user :=
           lift (User_new
                   (mkUser None (Some (utcnow env)) (utcnow env)
                      (c_username user_data) (c_email user_data)
                      (c_first_name user_data) (c_last_name user_data)
                      true false false false
                      (Some (c_password user_data)) None)) in
         let! saved_user := repository_save dj env user in
         let! _p :=
           publish_if_wired
             (UserCreatedEvent (new_base env (u_id saved_user))
                (u_username saved_user) (u_email saved_user)) in
         ret (_to_dto saved_user)) w
    end.

End CreateUserUseCase.

Module UpdateUserUseCase.

(** [user_data.email and user_data.email != user.email] *)
Definition email_is_being_updated (user : User) (user_data : UserUpdateDTO) : option string :=
  match up_email user_data with
  | Some email =>
      if Str.truthy email && negb (String.eqb email (u_email user))
      then Some email else None
  | None => None
  end.

(** The uniqueness check on a changed email. *)
Definition check_email (env : Env) (user_id : Z) (user : User) (user_data : UserUpdateDTO)
  : M unit :=
  match email_is_being_updated user user_data with
  | Some email =>
      let! unique :=
        query (fun db => UserDomainService.is_email_unique env db email (Some user_id)) in
      if negb unique
      then raise (ApplicationError ConflictError
                    ("Email '" +:+ email +:+ "' is already taken") [("field", "email")])
      else ret tt
  | None => ret tt
  end.

(** The three assignments from declared fields of the DTO, with the list of
    names that they append. *)
Definition apply_fields (user : User) (user_data : UserUpdateDTO) : User * list string :=
  let updated_fields := [] in
  let '(user, updated_fields) :=
    match up_first_name user_data with
    | Some v => (set_first_name user (Some v), updated_fields ++ ["first_name"])
    | None => (user, updated_fields)
    end in
  let '(user, updated_fields) :=
    match up_last_name user_data with
    | Some v => (set_last_name user (Some v), updated_fields ++ ["last_name"])
    | None => (user, updated_fields)
    end in
  match up_email user_data with
  | Some v => (set_email user (Str.strip (Str.lower v)), updated_fields ++ ["email"])
  | None => (user, updated_fields)
  end.

(** [if self._event_publisher and updated_fields: publish(UserUpdatedEvent)] *)
Definition publish_update (env : Env) (saved_user : User) (updated_fields : list string)
  : M unit :=
  match updated_fields with
  | _ :: _ =>
      publish_if_wired
        (UserUpdatedEvent (new_base env (u_id saved_user)) (u_id saved_user) updated_fields)
  | [] => ret tt
  end.

(** Save, publish, return the view. *)
Definition persist_and_publish (dj : Django) (env : Env) (user : User)
    (updated_fields : list string) : M UserDTO :=
  let! saved_user := repository_save dj env user in
  let! _p := publish_update env saved_user updated_fields in
  ret (_to_dto saved_user).

Definition execute (dj : Django) (env : Env) (user_id : Z) (user_data : UserUpdateDTO)
  : M UserDTO :=
  let! user := query (fun db => DjangoUserRepository.get_by_id env db (Some user_id)) in
  match user with
  | None => raise (not_found user_id)
  | Some user =>
      let! _c := check_email env user_id user user_data in
      let '(user, updated_fields) := apply_fields user user_data in
      let! phone_number := lift (UserUpdateDTO_get_phone_number user_data) in
      let '(user, updated_fields) :=
        match phone_number with
        | Some v => (set_phone_number user (Some v), updated_fields ++ ["phone_number"])
        | None => (user, updated_fields)
        end in
      persist_and_publish dj env user updated_fields
  end.

End UpdateUserUseCase.

Module GetUserUseCase.

Definition execute (env : Env) (user_id : Z) : M UserDTO :=
  let! user := query (fun db => DjangoUserRepository.get_by_id env db (Some user_id)) in
  match user with
  | None => raise (not_found user_id)
  | Some user => ret (_to_dto user)
  end.

End GetUserUseCase.

Module ChangePasswordUseCase.

(** From the policy check to the end of [execute]. *)
Definition validate_save_publish (dj : Django) (env : Env) (user : User)
    (new_password : string) : M unit :=
  let! django_user := query (fun db => objects_get_id db (u_id user)) in
  let! _v := lift (validate_password dj new_password django_user) in
  let! _s := repository_save dj env user in
  publish_if_wired (PasswordChangedEvent (new_base env (u_id user)) (u_id user)).

Definition execute (dj : Django) (env : Env) (user_id : Z)
    (old_password new_password : string) : M unit :=
  let! user := query (fun db => DjangoUserRepository.get_by_id env db (Some user_id)) in
  match user with
  | None => raise (not_found user_id)
  | Some user =>
      let! ok := lift (User_check_password user old_password) in
      if negb ok
      then raise (DRFValidationError
                    "Your old password was entered incorrectly. Please enter it again.")
      else validate_save_publish dj env user new_password
  end.

End ChangePasswordUseCase.

(** *** application/authentication/use_cases.py *)

Module AuthenticateUserUseCase.

Definition execute (dj : Django) (env : Env) (username password : string)
  : M (option AuthenticationResultDTO) :=
  fun w =>
    match authenticate dj (db w) username password with
    | None => (Return None, w)
    | Some django_user =>
        (let! user :=
           query (fun db => DjangoUserRepository.get_by_id env db (dj_id django_user)) in
         match user with
         | None => ret None
         | Some user =>
             if negb (AuthenticationDomainService.can_user_authenticate user)
             then ret None
             else
               let user_dto := _to_dto user in
               ret (Some (mkAuthenticationResultDTO user_dto None None None))
         end) w
    end.

End AuthenticateUserUseCase.

Module AuthenticateUserJWTUseCase.

(** [for_user] stands for [RefreshToken.for_user] of the token library: it
    gives [str(refresh)] and [str(refresh.access_token)] for a model
    instance. *)
Definition execute (dj : Django) (for_user : DjangoUser -> string * string) (env : Env)
    (username password : string) : M (option AuthenticationResultDTO) :=
  fun w =>
    match authenticate dj (db w) username password with
    | None => (Return None, w)
    | Some django_user =>
        (let! user :=
           query (fun db => DjangoUserRepository.get_by_id env db (dj_id django_user)) in
         match user with
         | None => ret None
         | Some user =>
             if negb (AuthenticationDomainService.can_user_authenticate user)
             then ret None
             else
               let '(refresh_token, access_token) := for_user django_user in
               let user_dto := _to_dto user in
               ret (Some (mkAuthenticationResultDTO user_dto (Some access_token)
                            (Some refresh_token) None))
         end) w
    end.

End AuthenticateUserJWTUseCase.

(* ===================================================================== *)
(** ** Infrastructure: handlers and the container
       (infrastructure/events/handlers.py,
        infrastructure/dependency_injection/container.py) *)
(* ===================================================================== *)

(** The three handlers read attributes of the event and print a line; the
    printed text is not modelled.  Reading an attribute that the event's
    class does not declare raises [AttributeError]. *)
Module Handlers.

Definition missing (event : DomainEvent) (attr : string) : outcome unit :=
  Raise (AttributeError (class_name (type_of event)) attr).

Definition handle_user_created : Handler :=
  function_named "handle_user_created"
    (fun event =>
       match event with
       | UserCreatedEvent _ _ _ => Return tt
       | _ => missing event "username"
       end).

Definition handle_user_updated : Handler :=
  function_named "handle_user_updated"
    (fun event =>
       match event with
       | UserUpdatedEvent _ _ _ => Return tt
       | UserCreatedEvent _ _ _ => missing event "user_id"
       | _ => missing event "updated_fields"
       end).

Definition handle_password_changed : Handler :=
  function_named "handle_password_changed"
    (fun event =>
       match event with
       | UserCreatedEvent _ _ _ => missing event "user_id"
       | _ => Return tt
       end).

End Handlers.

Module ServiceContainer.

(** The publisher that [ServiceContainer.__init__] builds and hands to the
    use cases. *)
Definition _event_publisher : InMemoryEventPublisher :=
  InMemoryEventPublisher.subscribe Handlers.handle_password_changed
    (Some PasswordChangedEvent_cls)
    (InMemoryEventPublisher.subscribe Handlers.handle_user_updated
       (Some UserUpdatedEvent_cls)
       (InMemoryEventPublisher.subscribe Handlers.handle_user_created
          (Some UserCreatedEvent_cls)
          InMemoryEventPublisher.__init__)).

End ServiceContainer.

(* ===================================================================== *)
(** ** Presentation: the profile and password views
       (authentication/views.py) *)
(* ===================================================================== *)

(** The payload of a [Response]. *)
Inductive json : Type :=
| JNull
| JBool (b : bool)
| JInt (z : Z)
| JStr (s : string)
| JDict (d : dict).

Record Response : Type := mkResponse {
  data : list (string * json);
  status_code : Z
}.

Definition json_of_id (i : option Z) : json :=
  match i with
  | Some z => JInt z
  | None => JNull
  end.

Definition json_of_optstr (o : option string) : json :=
  match o with
  | Some s => JStr s
  | None => JNull
  end.

(** The two [except] clauses that [UserMeApi.post] and [ChangePassword.post]
    share, for what they catch: [except ApplicationError as e] picks 404 for
    [NotFoundError], 409 for [ConflictError] and 400 otherwise;
    [except Exception as e] answers 500. *)
Definition error_response (e : exn) : Response :=
  match e with
  | ApplicationError k message extra =>
      mkResponse [("message", JStr message); ("extra", JDict extra)]
        (match k with
         | NotFoundError => 404
         | ConflictError => 409
         | _ => 400
         end)
  | _ => mkResponse [("error", JStr (exn_str e))] 500
  end.

Module UserMeApi.

(** The body that [get] and [post] build from the view. *)
Definition profile (user_dto : UserDTO) : list (string * json) :=
  [("id", json_of_id (dto_id user_dto));
   ("email", JStr (dto_email user_dto));
   ("username", JStr (dto_username user_dto));
   ("first_name", json_of_optstr (dto_first_name user_dto));
   ("last_name", json_of_optstr (dto_last_name user_dto));
   ("is_active", JBool (dto_is_active user_dto));
   ("is_admin", JBool (dto_is_admin user_dto));
   ("is_superuser", JBool (dto_is_superuser user_dto))].

(** [get]: [user_id] is [request.user.id]; only [ValueError] is caught. *)
Definition get (env : Env) (user_id : Z) : M Response :=
  fun w =>
    match GetUserUseCase.execute env user_id w with
    | (Return user_dto, w') => (Return (mkResponse (profile user_dto) 200), w')
    | (Raise (ValueError msg), w') =>
        (Return (mkResponse [("error", JStr msg)] 404), w')
    | (Raise e, w') => (Raise e, w')
    end.

(** [post], from the point where the serializer has accepted the payload:
    [user_data] holds the three optional fields of [validated_data]. *)
Definition post (dj : Django) (env : Env) (user_id : Z) (user_data : UserUpdateDTO)
  : M Response :=
  fun w =>
    match UpdateUserUseCase.execute dj env user_id user_data w with
    | (Return user_dto, w') => (Return (mkResponse (profile user_dto) 200), w')
    | (Raise e, w') =>
        if is_exception e then (Return (error_response e), w') else (Raise e, w')
    end.

End UserMeApi.

Module ChangePasswordView.

(** [ChangePassword.post], from the point where the serializer has accepted
    the payload: [old_password] and [password1] of [validated_data]. *)
Definition post (dj : Django) (env : Env) (user_id : Z) (old_password password1 : string)
  : M Response :=
  fun w =>
    match ChangePasswordUseCase.execute dj env user_id old_password password1 w with
    | (Return _, w') =>
        (Return (mkResponse [("message", JStr "Password changed successfully")] 200), w')
    | (Raise e, w') =>
        if is_exception e then (Return (error_response e), w') else (Raise e, w')
    end.

End ChangePasswordView.

(* ===================================================================== *)
(** ** A reference framework instance, for running the model *)
(* ===================================================================== *)

Module Reference.

(** A hasher that keeps the raw password behind a scheme prefix; [None]
    gives the unusable credential, which no raw password matches. *)
Definition make_password (raw : option string) : string :=
  match raw with
  | Some p => "plain$" +:+ p
  | None => "!"
  end.

Definition check_password (raw encoded : string) : bool :=
  String.eqb encoded ("plain$" +:+ raw).

(** Validators: [username] and [email] are unique among the other rows. *)
Definition full_clean (db : Db) (r : DjangoUser) : outcome unit :=
  let others := List.filter (fun o => negb (bool_decide (dj_id o = dj_id r))) (all_rows db) in
  if existsb (fun o => String.eqb (dj_username o) (dj_username r)) others
  then Raise (DjangoValidationError "User with this Username already exists.")
  else if existsb (fun o => String.eqb (dj_email o) (dj_email r)) others
  then Raise (DjangoValidationError "User with this Email already exists.")
  else Return tt.

(** A backend that looks the user up by [username] and checks the
    credential; it leaves the [is_active] decision to the caller. *)
Definition authenticate (db : Db) (username password : string) : option DjangoUser :=
  match objects_get_by (fun r => String.eqb (dj_username r) username) db with
  | Return r => if check_password password (dj_password r) then Some r else None
  | Raise _ => None
  end.

(** A policy that asks for eight characters. *)
Definition validate_password (password : string) (user : DjangoUser) : outcome unit :=
  if (String.length password <? 8)%nat
  then Raise (DjangoValidationError "This password is too short.")
  else Return tt.

Definition django : Django :=
  mkDjango false Some make_password check_password full_clean authenticate
    validate_password.

Definition env : Env := mkEnv 1700000000 "6f1c1d0e-0000-4000-8000-000000000001".

Definition empty_db : Db := mkDb ∅ 1.

Definition plain_bus : Bus := mkBus InMemoryEventPublisher.__init__ [] [].

Definition empty_world : World := mkWorld empty_db (Some plain_bus).

End Reference.

(** A table with one registered user, "alice", and a second table whose
    only row carries a user name that Django's own validator admits and the
    domain pattern does not. *)
Module Fixture.

Import Reference.

Definition alice_row : DjangoUser :=
  mkDjangoUser (Some 1) "alice" "alice@example.com" "Alice" "Liddell"
    true false false false (make_password (Some "correct horse")) (Some 1600000000) None.

Definition alice_db : Db := mkDb {[ 1 := alice_row ]} 2.

Definition alice_world : World := mkWorld alice_db (Some plain_bus).

(** What [get_by_id] returns for alice. *)
Definition alice : User :=
  mkUser (Some 1) (Some 1600000000) (utcnow env) "alice" "alice@example.com"
    (Some "Alice") (Some "Liddell") true false false false None None.

Definition dotted_row : DjangoUser :=
  mkDjangoUser (Some 1) "john.doe" "john@example.com" "John" "Doe"
    true false false false (make_password (Some "correct horse")) (Some 1600000000) None.

Definition dotted_world : World := mkWorld (mkDb {[ 1 := dotted_row ]} 2) (Some plain_bus).

(** The reference framework with a backend that verifies every stored
    user name, whatever the password. *)
Definition trusting_django : Django :=
  mkDjango false Some make_password check_password full_clean
    (fun d username _ =>
       match objects_get_by (fun r => String.eqb (dj_username r) username) d with
       | Return r => Some r
       | Raise _ => None
       end)
    validate_password.

(** An entity that no table holds yet. *)
Definition bob : User :=
  mkUser None None 0 "bob" "Bob@Example.com" None None
    true false false false (Some "pw") None.

End Fixture.

(* ===================================================================== *)
(** ** Vocabulary of the statements *)
(* ===================================================================== *)

Section Vocabulary.

Import InMemoryEventPublisher.

(** The subscribers that a publish of [event] addresses: those registered
    for its class, then those registered for every event. *)
Definition subscribers_for (p : InMemoryEventPublisher) (event : DomainEvent) : list Handler :=
  default [] (_subscribers_by_type p !! type_of event) ++ _all_subscribers p.

Definition calls_of (hs : list Handler) (event : DomainEvent) : list Call :=
  List.map (fun h => (h_name h, event)) hs.

(** The call of [h] with [event] after the calls of [trace] stays inside
    [_notify_subscriber]: it returns, or it raises an instance of
    [Exception] and [h] has a [__name__] for the record. *)
Definition contained (h : Handler) (event : DomainEvent) (trace : list Call) : bool :=
  match h_call h event trace with
  | Return _ => true
  | Raise e => is_exception e && bool_decide (is_Some (h_name h))
  end.

(** Every subscriber of [hs] is contained when they are called in order. *)
Fixpoint all_contained (hs : list Handler) (event : DomainEvent) (trace : list Call) : bool :=
  match hs with
  | [] => true
  | h :: rest =>
      contained h event trace && all_contained rest event (trace ++ [(h_name h, event)])
  end.

(** The record that a subscriber causes when it raises an [Exception] and
    has a name. *)
Definition error_record_of (h : Handler) (event : DomainEvent) (trace : list Call)
  : list string :=
  match h_call h event trace, h_name h with
  | Raise e, Some name => if is_exception e then [error_record name event e] else []
  | _, _ => []
  end.

(** The records that the subscribers of [hs] cause when they are called in
    order. *)
Fixpoint error_records (hs : list Handler) (event : DomainEvent) (trace : list Call)
  : list string :=
  match hs with
  | [] => []
  | h :: rest =>
      error_record_of h event trace ++ error_records rest event (trace ++ [(h_name h, event)])
  end.

(** The scenario of the specification: two subscribers for
    [UserCreatedEvent], the first of which raises, and one for all events. *)
Definition failing_handler : Handler :=
  function_named "send_welcome_email" (fun _ => Raise (ValueError "smtp down")).

Definition audit_handler : Handler := function_named "audit" (fun _ => Return tt).

Definition metrics_handler : Handler := function_named "metrics" (fun _ => Return tt).

Definition three_subscribers : InMemoryEventPublisher :=
  subscribe metrics_handler None
    (subscribe audit_handler (Some UserCreatedEvent_cls)
       (subscribe failing_handler (Some UserCreatedEvent_cls) __init__)).

(** The same scenario with the raising subscriber registered as
    [functools.partial(send, "welcome")], which has no [__name__], and with
    it registered as a function that raises [KeyboardInterrupt]. *)
Definition partial_handler : Handler :=
  mkHandler "functools.partial" None (fun _ _ => Raise (ValueError "smtp down")).

Definition interrupted_handler : Handler :=
  function_named "send_welcome_email" (fun _ => Raise (BaseExceptionOnly "KeyboardInterrupt")).

Definition subscribers_after (first : Handler) : InMemoryEventPublisher :=
  subscribe metrics_handler None
    (subscribe audit_handler (Some UserCreatedEvent_cls)
       (subscribe first (Some UserCreatedEvent_cls) __init__)).

(** A subscriber that returns at its first call and raises from then on. *)
Definition once_handler : Handler :=
  mkHandler "Once" None
    (fun _ trace =>
       if existsb (fun call => bool_decide (fst call = None)) trace
       then Raise (ValueError "called twice")
       else Return tt).

(** The stored row of the identity that the backend verified, if any. *)
Definition verified_row (dj : Django) (d : Db) (username password : string)
  : option DjangoUser :=
  match authenticate dj d username password with
  | Some django_user =>
      match objects_get_id d (dj_id django_user) with
      | Return r => Some r
      | Raise _ => None
      end
  | None => None
  end.

(** The row passes the checks of [User.__post_init__]. *)
Definition row_constructs (r : DjangoUser) : bool :=
  Str.truthy (dj_username r) && Str.truthy (dj_email r) &&
  Re.match_anchored ValueObjects.username_pattern (dj_username r).

(** The view of the entity built from a row. *)
Definition view_of_row (r : DjangoUser) : UserDTO :=
  mkUserDTO (dj_id r) (dj_username r) (Str.strip (Str.lower (dj_email r)))
    (Some (dj_first_name r)) (Some (dj_last_name r))
    (dj_is_active r) (dj_is_staff r) (dj_is_admin r) (dj_is_superuser r).

Definition result_of_row (r : DjangoUser) : AuthenticationResultDTO :=
  mkAuthenticationResultDTO (view_of_row r) None None None.

(** The encoded credential stored for a primary key. *)
Definition stored_password (d : Db) (pk : Z) : option string :=
  dj_password <$> rows d !! pk.

(** The table is keyed by primary key, and the keys in use lie below the
    next key. *)
Definition db_wf (d : Db) : Prop :=
  forall k r, rows d !! k = Some r -> dj_id r = Some k /\ k < next_id d.

(** The key under which [save] writes an entity. *)
Definition save_key (d : Db) (entity : User) : Z :=
  match u_id entity with
  | Some pk => if id_truthy (u_id entity) then pk else next_id d
  | None => next_id d
  end.

(** The handlers that the container wires to a class of events. *)
Definition wired_handlers (t : EventType) : list Handler :=
  match t with
  | UserCreatedEvent_cls => [Handlers.handle_user_created]
  | UserUpdatedEvent_cls => [Handlers.handle_user_updated]
  | PasswordChangedEvent_cls => [Handlers.handle_password_changed]
  | UserActivatedEvent_cls => []
  | UserDeactivatedEvent_cls => []
  end.

(** The row that [save] writes for an entity, given the row it starts from. *)
Definition written_row (dj : Django) (entity : User) (base : DjangoUser) : DjangoUser :=
  set_password dj
    (mkDjangoUser (dj_id base) (u_username entity) (u_email entity)
       (DjangoUserRepository.or_empty (u_first_name entity)) (DjangoUserRepository.or_empty (u_last_name entity))
       (u_is_active entity) (u_is_staff entity) (u_is_admin entity)
       (u_is_superuser entity) (dj_password base) (dj_date_joined base)
       (match (if has_phone_number dj then u_phone_number entity else None) with
        | Some pn => pn
        | None => dj_phone_number base
        end))
    (u_password entity).

(** The row that [CreateUserUseCase] hands to the validators, but for the
    instant that the model's default puts into [date_joined]. *)
Definition created_row (dj : Django) (user_data : UserCreateDTO) (date_joined : option Z)
  : DjangoUser :=
  mkDjangoUser None (c_username user_data) (Str.strip (Str.lower (c_email user_data)))
    (DjangoUserRepository.or_empty (c_first_name user_data)) (DjangoUserRepository.or_empty (c_last_name user_data))
    true false false false (make_password dj (Some (c_password user_data)))
    date_joined None.

(** An entity but for its [updated_at]. *)
Definition set_updated_at (user : User) (v : Z) : User :=
  mkUser (u_id user) (u_created_at user) v (u_username user)
    (u_email user) (u_first_name user) (u_last_name user) (u_is_active user)
    (u_is_staff user) (u_is_admin user) (u_is_superuser user) (u_password user)
    (u_phone_number user).

(** The user name of an entity is not empty and has the shape that the
    domain asks for. *)
Definition username_valid (user : User) : bool :=
  Str.truthy (u_username user) &&
  Re.match_anchored ValueObjects.username_pattern (u_username user).

End Vocabulary.

(* ===================================================================== *)
(** * Properties *)
(* ===================================================================== *)

(** ** The matcher *)

Section RegexFacts.

Import Re.

Lemma append_nil_l (s : string) : "" +:+ s = s.
Proof. reflexivity. Qed.

Lemma append_cons (c : ascii) (s t : string) : String c s +:+ t = String c (s +:+ t).
Proof. reflexivity. Qed.

Lemma append_empty (s1 s2 : string) : s1 +:+ s2 = "" -> s1 = "" /\ s2 = "".
Proof.
  destruct s1; [rewrite append_nil_l; auto|rewrite append_cons; discriminate].
Qed.

Lemma nullable_matches (r : regex) : nullable r = true <-> Matches r "".
Proof.
  split.
  - induction r as [| |p|r1 IH1 r2 IH2|r1 IH1 r2 IH2|r IH]; simpl; intros H;
      try discriminate.
    + constructor.
    + apply andb_prop in H as [H1 H2].
      rewrite <- (append_nil_l ""). constructor; auto.
    + apply orb_prop in H as [H|H]; [apply M_AltL|apply M_AltR]; auto.
    + constructor.
  - intros H. remember "" as s eqn:Hs.
    induction H as [|p c Hp|r1 r2 s1 s2 H1 IH1 H2 IH2|r1 r2 s H IH|r1 r2 s H IH
                    |r|r s1 s2 H1 IH1 H2 IH2]; simpl; try reflexivity.
    + discriminate.
    + apply append_empty in Hs as [-> ->]. rewrite IH1, IH2; reflexivity.
    + rewrite IH by assumption. reflexivity.
    + rewrite IH by assumption. apply orb_true_r.
Qed.

Lemma matches_deriv (c : ascii) (r : regex) (s : string) :
  Matches r (String c s) -> Matches (deriv c r) s.
Proof.
  intros H. remember (String c s) as cs eqn:Hcs. revert s Hcs.
  induction H as [|p a Hp|r1 r2 s1 s2 H1 IH1 H2 IH2|r1 r2 t H IH|r1 r2 t H IH
                  |r|r s1 s2 H1 IH1 H2 IH2]; intros s Hcs; simpl.
  - discriminate.
  - injection Hcs as -> <-. rewrite Hp. constructor.
  - destruct s1 as [|a s1]; rewrite ?append_nil_l, ?append_cons in Hcs.
    + subst s2. apply nullable_matches in H1. rewrite H1.
      apply M_AltR. apply IH2. reflexivity.
    + injection Hcs as -> <-.
      destruct (nullable r1); [apply M_AltL|]; constructor; auto.
  - apply M_AltL. auto.
  - apply M_AltR. auto.
  - discriminate.
  - destruct s1 as [|a s1]; rewrite ?append_nil_l, ?append_cons in Hcs.
    + apply IH2. exact Hcs.
    + injection Hcs as -> <-. constructor; auto.
Qed.

Lemma deriv_matches (c : ascii) (r : regex) (s : string) :
  Matches (deriv c r) s -> Matches r (String c s).
Proof.
  revert s. induction r as [| |p|r1 IH1 r2 IH2|r1 IH1 r2 IH2|r IH]; simpl; intros s H.
  - inversion H.
  - inversion H.
  - destruct (p c) eqn:Hp; inversion H; subst. constructor. exact Hp.
  - destruct (nullable r1) eqn:Hn.
    + inversion H as [| | |? ? ? H'|? ? ? H'| |]; subst.
      * inversion H' as [| |? ? s1 s2 Ha Hb| | | |]; subst.
        rewrite <- append_cons. constructor; auto.
      * rewrite <- (append_nil_l (String c s)).
        constructor; [apply nullable_matches; exact Hn|auto].
    + inversion H as [| |? ? s1 s2 Ha Hb| | | |]; subst.
      rewrite <- append_cons. constructor; auto.
  - inversion H; subst; [apply M_AltL|apply M_AltR]; auto.
  - inversion H as [| |? ? s1 s2 Ha Hb| | | |]; subst.
    rewrite <- append_cons. constructor; auto.
Qed.

(** The matcher decides the relation. *)
Lemma fullmatch_matches (r : regex) (s : string) : fullmatch r s = true <-> Matches r s.
Proof.
  revert r. induction s as [|c s IH]; intros r; simpl.
  - apply nullable_matches.
  - rewrite IH. split; [apply deriv_matches|apply matches_deriv].
Qed.

Lemma chomp_spec (s s' : string) :
  chomp s = Some s' <-> s = s' +:+ String (ascii_of_N 10) "".
Proof.
  revert s'. induction s as [|c s IH]; intros s'.
  - simpl. split; [discriminate|]. intros H. symmetry in H.
    apply append_empty in H as [_ H]. discriminate.
  - destruct s as [|d s].
    + cbn [chomp]. destruct (N.eqb_spec (Str.code c) 10) as [Hc|Hc].
      * split.
        -- intros H. injection H as <-. rewrite append_nil_l. f_equal.
           unfold Str.code in Hc. rewrite <- Hc. symmetry. apply ascii_N_embedding.
        -- intros H. destruct s' as [|a s']; [reflexivity|].
           rewrite append_cons in H. injection H as _ H. symmetry in H.
           apply append_empty in H as [_ H]. discriminate.
      * split; [discriminate|]. intros H.
        destruct s' as [|a s'].
        -- rewrite append_nil_l in H. injection H as ->. exfalso. apply Hc. reflexivity.
        -- rewrite append_cons in H. injection H as _ H. symmetry in H.
           apply append_empty in H as [_ H]. discriminate.
    + change (chomp (String c (String d s)))
        with (option_map (String c) (chomp (String d s))).
      split.
      * destruct (chomp (String d s)) as [t|] eqn:Ht; [|discriminate].
        intros H. injection H as <-. rewrite append_cons. f_equal.
        apply IH. reflexivity.
      * intros H. destruct s' as [|a s'].
        -- rewrite append_nil_l in H. discriminate.
        -- rewrite append_cons in H. injection H as <- H.
           apply IH in H. rewrite H. reflexivity.
Qed.

(** [re.match] with [^r$]: the whole string matches, or the string without
    its final line feed does. *)
Lemma match_anchored_spec (r : regex) (s : string) :
  match_anchored r s = true <->
  Matches r s \/ exists s', s = s' +:+ String (ascii_of_N 10) "" /\ Matches r s'.
Proof.
  unfold match_anchored. rewrite orb_true_iff, fullmatch_matches.
  split; intros [H|H]; auto.
  - destruct (chomp s) as [s'|] eqn:Hc; [|discriminate].
    right. exists s'. split; [apply chomp_spec; exact Hc|apply fullmatch_matches; exact H].
  - destruct H as (s' & Hs & Hm). apply chomp_spec in Hs. rewrite Hs.
    right. apply fullmatch_matches. exact Hm.
Qed.

End RegexFacts.

(** ** Value objects and the entity *)

Section ValueObjectFacts.

Import ValueObjects.

Lemma match_anchored_nonempty (r : Re.regex) (s : string) :
  Re.nullable r = false -> Re.match_anchored r s = true -> Str.truthy s = true.
Proof.
  intros Hnull Hm. destruct s as [|c s]; [|reflexivity].
  unfold Re.match_anchored in Hm. simpl in Hm. rewrite Hnull in Hm. discriminate.
Qed.

Lemma email_pattern_not_nullable : Re.nullable email_pattern = false.
Proof. reflexivity. Qed.

Lemma username_pattern_not_nullable : Re.nullable username_pattern = false.
Proof. reflexivity. Qed.

(** The patterns on a few inputs, with the answers of [re.match]. *)
Example username_pattern_examples :
  List.map (Re.match_anchored username_pattern)
    ["bob"; "bob smith_2"; "bob  smith"; " bob"; "bob "; "john.doe"; "";
     "bob" +:+ String (ascii_of_N 10) ""]
  = [true; true; false; false; false; false; false; true].
Proof. reflexivity. Qed.

Example email_pattern_examples :
  List.map (Re.match_anchored email_pattern)
    ["a@b.co"; "A.b+c@Example-x.ORG"; "a@b.c"; "a@b"; " a@b.co"; "a@b.co "; "a b@c.de";
     "a@b.co" +:+ String (ascii_of_N 10) ""]
  = [true; true; false; false; false; false; false; true].
Proof. reflexivity. Qed.

Example normalisation_examples :
  Str.strip (Str.lower "  Alice@Example.COM ") = "alice@example.com" /\
  Str.strip "   " = "" /\
  Str.strip (String (ascii_of_N 9) "a b" +:+ String (ascii_of_N 10) "") = "a b".
Proof. repeat split; reflexivity. Qed.

(** X28: both directions of [Email]'s check: a value is accepted exactly when it
    matches the pattern as it stands. *)
Lemma Email_new_accepts_iff (s : string) :
  (exists e, Email_new s = Return e) <-> Re.match_anchored email_pattern s = true.
Proof.
  unfold Email_new. split.
  - intros [e He].
    destruct (Str.truthy s); simpl in He; [|discriminate].
    destruct (Re.match_anchored email_pattern s); [reflexivity|discriminate].
  - intros Hm.
    rewrite (match_anchored_nonempty _ _ email_pattern_not_nullable Hm), Hm.
    simpl. eauto.
Qed.

(** C9 at addresses padded with a space: the trimmed, lower-cased form of
    [" a@b.co"] and of ["A@B.co "] is an address of the right shape, yet
    construction raises, because the pattern is applied to the value before
    it is normalised.  The [strip] that follows the check can only ever
    remove a final line feed, the one character that [$] lets pass. *)
Theorem Email_rejects_padded_address :
  Re.match_anchored email_pattern (Str.strip (Str.lower " a@b.co")) = true /\
  Email_new " a@b.co" = Raise (ValueError "Invalid email format") /\
  Re.match_anchored email_pattern (Str.strip (Str.lower "A@B.co ")) = true /\
  Email_new "A@B.co " = Raise (ValueError "Invalid email format") /\
  Email_new ("A@B.co" +:+ String (ascii_of_N 10) "") = Return (mkEmail "a@b.co") /\
  Email_new "A@B.co" = Return (mkEmail "a@b.co").
Proof. repeat split; reflexivity. Qed.

End ValueObjectFacts.

Section EntityFacts.

Import ValueObjects.

Lemma truthy_iff (s : string) : Str.truthy s = true <-> s <> "".
Proof. destruct s; simpl; split; congruence. Qed.

(** C5, as stated, fails for the email: [User] is constructed with an email
    that the [Email] value object rejects as malformed, and the assignment
    that [UpdateUserUseCase] performs leaves a constructed entity with an
    empty email. *)
Lemma User_accepts_malformed_email :
  (exists u, User_new (mkUser None None 0 "bob" "not-an-email" None None
                         true false false false None None) = Return u /\
             u_email u = "not-an-email") /\
  Email_new "not-an-email" = Raise (ValueError "Invalid email format") /\
  u_email (fst (UpdateUserUseCase.apply_fields Fixture.alice
                  (mkUserUpdateDTO None None (Some "  ")))) = "".
Proof.
  split; [|split]; [|reflexivity|reflexivity].
  eexists; split; reflexivity.
Qed.

End EntityFacts.

(** ** Equality and hashing of entities *)

Section EqualityFacts.

(** The generated comparison of two [User] instances is equality of their
    dataclass fields. *)
Lemma user_fields_eq_true (a b : User) :
  user_fields_eq a b = true ->
  u_id a = u_id b /\ u_username a = u_username b /\ u_email a = u_email b /\
  u_password a = u_password b.
Proof.
  unfold user_fields_eq. intros H.
  repeat (apply andb_prop in H; destruct H as [H ?]).
  repeat match goal with
         | Hb : bool_decide _ = true |- _ => apply bool_decide_eq_true in Hb
         end.
  auto.
Qed.

Lemma base_eq_same_id (a b : User) :
  u_id a = u_id b -> DomainEntity___eq__ (UserObj a) (UserObj b) = true.
Proof.
  intros H. unfold DomainEntity___eq__, isinstance_of_class_of. simpl.
  rewrite H, !bool_decide_eq_true_2 by reflexivity. reflexivity.
Qed.

(** C10 at two [User] instances with the same id and different names, and
    at two instances that are not persisted yet: the comparison written in
    [DomainEntity] says equal, the comparison that [==] runs says different,
    and [hash] raises. *)
Theorem User_equality_is_fieldwise :
  let a := mkUser (Some 7) (Some 10) 10 "alice" "a@example.com" None None
             true false false false None None in
  let b := mkUser (Some 7) (Some 10) 10 "bob" "b@example.com" None None
             true false false false None None in
  let c := mkUser None (Some 10) 10 "carol" "c@example.com" None None
             true false false false None None in
  let d := mkUser None (Some 10) 10 "dave" "d@example.com" None None
             true false false false None None in
  DomainEntity___eq__ (UserObj a) (UserObj b) = true /\
  Entity_eq (UserObj a) (UserObj b) = false /\
  DomainEntity___eq__ (UserObj c) (UserObj d) = true /\
  Entity_eq (UserObj c) (UserObj d) = false /\
  Entity_hash (UserObj a) = Raise (TypeError "unhashable type").
Proof. repeat split; reflexivity. Qed.

End EqualityFacts.

(** ** The event publisher *)

Section PublisherFacts.

Import InMemoryEventPublisher.

Lemma calls_of_app (xs ys : list Handler) (event : DomainEvent) :
  calls_of (xs ++ ys) event = calls_of xs event ++ calls_of ys event.
Proof. unfold calls_of. apply List.map_app. Qed.

Lemma error_records_app (xs ys : list Handler) (event : DomainEvent) (trace : list Call) :
  error_records (xs ++ ys) event trace =
  error_records xs event trace ++ error_records ys event (trace ++ calls_of xs event).
Proof.
  revert trace. induction xs as [|h xs IH]; intros trace.
  - simpl. rewrite app_nil_r. reflexivity.
  - cbn [app error_records]. rewrite IH.
    change (calls_of (h :: xs) event) with ([(h_name h, event)] ++ calls_of xs event).
    rewrite !app_assoc. reflexivity.
Qed.

Lemma all_contained_app (xs ys : list Handler) (event : DomainEvent) (trace : list Call) :
  all_contained (xs ++ ys) event trace =
  all_contained xs event trace && all_contained ys event (trace ++ calls_of xs event).
Proof.
  revert trace. induction xs as [|h xs IH]; intros trace.
  - simpl. rewrite app_nil_r. reflexivity.
  - cbn [app all_contained]. rewrite IH.
    change (calls_of (h :: xs) event) with ([(h_name h, event)] ++ calls_of xs event).
    rewrite !app_assoc, andb_assoc. reflexivity.
Qed.

(** A contained call leaves [_notify_subscriber] by its end. *)
Lemma notify_contained (h : Handler) (event : DomainEvent) (b : Bus) :
  contained h event (invoked b) = true ->
  _notify_subscriber h event b =
  (Return tt,
   mkBus (publisher b) (invoked b ++ calls_of [h] event)
     (logged b ++ error_record_of h event (invoked b))).
Proof.
  unfold contained, _notify_subscriber, error_record_of, calls_of. simpl.
  destruct (h_call h event (invoked b)) as [[]|e]; simpl.
  - intros _. rewrite app_nil_r. reflexivity.
  - destruct (is_exception e); simpl; [|discriminate].
    destruct (h_name h); simpl; [reflexivity|discriminate].
Qed.

(** A call that is not contained leaves it with an exception, after the
    call and without a record. *)
Lemma notify_escapes (h : Handler) (event : DomainEvent) (b : Bus) :
  contained h event (invoked b) = false ->
  exists e,
    _notify_subscriber h event b =
    (Raise e, mkBus (publisher b) (invoked b ++ calls_of [h] event) (logged b)) /\
    (h_call h event (invoked b) = Raise e /\ is_exception e = false \/
     h_name h = None /\ e = AttributeError (h_type h) "__name__").
Proof.
  unfold contained, _notify_subscriber, calls_of. simpl.
  destruct (h_call h event (invoked b)) as [[]|e]; simpl; [discriminate|].
  destruct (is_exception e) eqn:He; simpl.
  - destruct (h_name h) eqn:Hn; simpl.
    + discriminate.
    + intros _. eexists. split; [reflexivity|]. right. split; reflexivity.
  - intros _. eexists. split; [reflexivity|]. left. split; [reflexivity|exact He].
Qed.

Lemma for_each_notify (hs : list Handler) (event : DomainEvent) (b : Bus) :
  all_contained hs event (invoked b) = true ->
  for_each hs (fun h => _notify_subscriber h event) b =
  (Return tt,
   mkBus (publisher b) (invoked b ++ calls_of hs event)
     (logged b ++ error_records hs event (invoked b))).
Proof.
  revert b. induction hs as [|h hs IH]; intros b Hc.
  - simpl. rewrite !app_nil_r. destruct b; reflexivity.
  - cbn [all_contained] in Hc. apply andb_prop in Hc as [Hh Hc].
    cbn [for_each]. rewrite (notify_contained _ _ _ Hh).
    rewrite IH by exact Hc. cbn [publisher invoked logged error_records].
    change (calls_of (h :: hs) event) with (calls_of [h] event ++ calls_of hs event).
    rewrite <- !app_assoc. reflexivity.
Qed.

(** The whole effect of one [publish] whose calls are all contained. *)
Lemma publish_effect (event : DomainEvent) (b : Bus) :
  all_contained (subscribers_for (publisher b) event) event (invoked b) = true ->
  publish event b =
  (Return tt,
   mkBus (mkPublisher (_events (publisher b) ++ [event])
            (_subscribers_by_type (publisher b)) (_all_subscribers (publisher b)))
     (invoked b ++ calls_of (subscribers_for (publisher b) event) event)
     (logged b ++ error_records (subscribers_for (publisher b) event) event (invoked b))).
Proof.
  unfold publish, subscribers_for. cbn [publisher _subscribers_by_type _all_subscribers].
  rewrite all_contained_app. intros Hc. apply andb_prop in Hc as [Ht Ha].
  destruct (_subscribers_by_type (publisher b) !! type_of event) as [hs|] eqn:Hl;
    cbn [default] in *.
  - rewrite for_each_notify by exact Ht. cbn [publisher invoked logged _all_subscribers].
    rewrite for_each_notify by exact Ha. cbn [publisher invoked logged].
    rewrite calls_of_app, error_records_app, !app_assoc. reflexivity.
  - change (calls_of [] event) with (@nil Call) in Ha. rewrite app_nil_r in Ha.
    rewrite for_each_notify by exact Ha. cbn [publisher invoked logged].
    reflexivity.
Qed.

(** C4 at a publisher whose first subscriber for [UserCreatedEvent] raises
    [ValueError] and is a [functools.partial]: building the record for the
    log reads [subscriber.__name__], so [publish] does not return, it raises
    [AttributeError], and neither the second subscriber of the class nor the
    subscriber of all events is called; nothing is logged.  The same
    publisher with a first subscriber that raises [KeyboardInterrupt] lets
    that exception through likewise.  Registered as a function that raises
    [ValueError], the subscriber is isolated as the claim says. *)
Theorem publish_lets_a_subscriber_failure_out :
  let event := UserCreatedEvent (new_base Reference.env (Some 1)) "alice" "alice@example.com" in
  publish event (mkBus (subscribers_after partial_handler) [] []) =
    (Raise (AttributeError "functools.partial" "__name__"),
     mkBus (mkPublisher [event]
              (_subscribers_by_type (subscribers_after partial_handler))
              (_all_subscribers (subscribers_after partial_handler)))
       [(None, event)] []) /\
  subscribers_for (subscribers_after partial_handler) event =
    [partial_handler; audit_handler; metrics_handler] /\
  publish event (mkBus (subscribers_after interrupted_handler) [] []) =
    (Raise (BaseExceptionOnly "KeyboardInterrupt"),
     mkBus (mkPublisher [event]
              (_subscribers_by_type (subscribers_after interrupted_handler))
              (_all_subscribers (subscribers_after interrupted_handler)))
       [(Some "send_welcome_email", event)] []) /\
  (let '(r, b') := publish event (mkBus (subscribers_after failing_handler) [] []) in
   r = Return tt /\
   List.map fst (invoked b') = [Some "send_welcome_email"; Some "audit"; Some "metrics"] /\
   logged b' = ["Error handling event UserCreatedEvent in send_welcome_email: smtp down"]).
Proof. vm_compute. repeat split; reflexivity. Qed.

Example publish_three_subscribers :
  let event := UserCreatedEvent (new_base Reference.env (Some 1)) "alice" "alice@example.com" in
  let '(r, b') := publish event (mkBus three_subscribers [] []) in
  r = Return tt /\
  List.map fst (invoked b') = [Some "send_welcome_email"; Some "audit"; Some "metrics"] /\
  logged b' = ["Error handling event UserCreatedEvent in send_welcome_email: smtp down"] /\
  _events (publisher b') = [event].
Proof. vm_compute. repeat split; reflexivity. Qed.

(** A subscriber that keeps state and is registered twice: its second call
    in the same [publish] raises, and having no name it ends the
    [publish]. *)
Example publish_stateful_subscriber :
  let event := PasswordChangedEvent (new_base Reference.env (Some 1)) (Some 1) in
  let p := subscribe once_handler None
             (subscribe once_handler (Some PasswordChangedEvent_cls) __init__) in
  publish event (mkBus p [] []) =
    (Raise (AttributeError "Once" "__name__"),
     mkBus (mkPublisher [event] (_subscribers_by_type p) (_all_subscribers p))
       [(None, event); (None, event)] []).
Proof. vm_compute. reflexivity. Qed.

End PublisherFacts.

(** ** Authentication *)

Section AuthenticationFacts.

Import DjangoUserRepository.

Lemma objects_get_id_raises (d : Db) (pk : option Z) (e : exn) :
  objects_get_id d pk = Raise e -> e = DoesNotExist.
Proof.
  unfold objects_get_id. destruct pk as [k|]; [destruct (rows d !! k)|]; congruence.
Qed.

Lemma to_domain_of_constructible (env : Env) (r : DjangoUser) :
  row_constructs r = true ->
  exists user, _to_domain env r = Return user /\
               _to_dto user = view_of_row r /\ u_is_active user = dj_is_active r.
Proof.
  unfold row_constructs. intros H.
  apply andb_prop in H as [H Hm]. apply andb_prop in H as [Hu He].
  unfold _to_domain, User_new, User___post_init__. simpl.
  rewrite Hu, He. simpl. rewrite Hm. simpl.
  eexists. split; [reflexivity|]. split; reflexivity.
Qed.

Lemma to_domain_raises_unless_constructible (env : Env) (r : DjangoUser) :
  row_constructs r = false -> exists msg, _to_domain env r = Raise (ValueError msg).
Proof.
  unfold row_constructs, _to_domain, User_new, User___post_init__. simpl.
  destruct (Str.truthy (dj_username r)); simpl; [|eauto].
  destruct (Str.truthy (dj_email r)); simpl; [|eauto].
  intros ->. simpl. eauto.
Qed.

(** The result of [execute] as a function of the verified row. *)
Lemma AuthenticateUser_execute_eq (dj : Django) (env : Env) (username password : string)
    (w : World) :
  (forall r, verified_row dj (db w) username password = Some r -> row_constructs r = true) ->
  AuthenticateUserUseCase.execute dj env username password w =
  (Return match verified_row dj (db w) username password with
          | Some r => if dj_is_active r then Some (result_of_row r) else None
          | None => None
          end, w).
Proof.
  unfold AuthenticateUserUseCase.execute, verified_row. intros Hok.
  destruct (authenticate dj (db w) username password) as [du|]; [|reflexivity].
  unfold bind, query, get_by_id.
  destruct (objects_get_id (db w) (dj_id du)) as [r|e] eqn:Hget.
  - destruct (to_domain_of_constructible env r (Hok r eq_refl)) as (user & Hd & Hv & Ha).
    rewrite Hd. simpl.
    unfold AuthenticationDomainService.can_user_authenticate, ret, result_of_row.
    rewrite Ha, <- Hv. destruct (dj_is_active r); reflexivity.
  - rewrite (objects_get_id_raises _ _ _ Hget). reflexivity.
Qed.

(** C7 at a stored user whose name has a dot, which Django's validator
    admits and the domain pattern does not: the backend verifies the
    credentials, and [execute] raises the [ValueError] of the entity's
    constructor instead of returning a result or none. *)
Theorem AuthenticateUser_raises_on_unconstructible_row :
  verified_row Reference.django (db Fixture.dotted_world) "john.doe" "correct horse"
    = Some Fixture.dotted_row /\
  AuthenticateUserUseCase.execute Reference.django Reference.env
    "john.doe" "correct horse" Fixture.dotted_world
    = (Raise (ValueError "Invalid username format"), Fixture.dotted_world).
Proof. split; vm_compute; reflexivity. Qed.

(** X31: when the stored row of the verified identity, if there is one, has
    a non-empty email and a non-empty user name of the domain's shape,
    [execute] returns and changes nothing; the result is absent when the
    backend verifies nothing, when no row is stored under the verified
    identity, and when the row is inactive; otherwise it carries the view of
    the row. *)
Theorem AuthenticateUser_outcomes (dj : Django) (env : Env)
    (username password : string) (w : World) :
  (forall r, verified_row dj (db w) username password = Some r -> row_constructs r = true) ->
  exists res,
    AuthenticateUserUseCase.execute dj env username password w = (Return res, w) /\
    (authenticate dj (db w) username password = None -> res = None) /\
    (forall django_user,
        authenticate dj (db w) username password = Some django_user ->
        objects_get_id (db w) (dj_id django_user) = Raise DoesNotExist -> res = None) /\
    (forall r, verified_row dj (db w) username password = Some r ->
               dj_is_active r = false -> res = None) /\
    (forall r, verified_row dj (db w) username password = Some r ->
               dj_is_active r = true -> res = Some (result_of_row r)).
Proof.
  intros Hok. rewrite (AuthenticateUser_execute_eq dj env username password w Hok).
  clear Hok. eexists. split; [reflexivity|].
  unfold verified_row.
  destruct (authenticate dj (db w) username password) as [du|].
  - destruct (objects_get_id (db w) (dj_id du)) as [r|e] eqn:Hget.
    + split; [discriminate|]. split; [|split].
      * intros du' Hdu Hnone. injection Hdu as <-. congruence.
      * intros r' Hr Ha. injection Hr as <-. now rewrite Ha.
      * intros r' Hr Ha. injection Hr as <-. now rewrite Ha.
    + split; [discriminate|]. split; [|split]; [reflexivity|discriminate|discriminate].
  - split; [reflexivity|]. split; [|split]; discriminate.
Qed.

(** The theorem at alice's credentials. *)
Lemma AuthenticateUser_outcomes_witness :
  exists res,
    AuthenticateUserUseCase.execute Reference.django Reference.env
      "alice" "correct horse" Fixture.alice_world = (Return res, Fixture.alice_world) /\
    res = Some (result_of_row Fixture.alice_row).
Proof.
  destruct (AuthenticateUser_outcomes Reference.django Reference.env
              "alice" "correct horse" Fixture.alice_world) as (res & Hrun & _ & _ & _ & Hok).
  - intros r Hr. vm_compute in Hr. injection Hr as <-. reflexivity.
  - exists res. split; [exact Hrun|]. apply Hok; reflexivity.
Defined.

End AuthenticationFacts.

(** ** Use cases on users *)

Section UseCaseFacts.

Import DjangoUserRepository.

Lemma publish_if_wired_effect (event : DomainEvent) (w : World) (b : Bus) :
  bus w = Some b ->
  all_contained (subscribers_for (publisher b) event) event (invoked b) = true ->
  exists w',
    publish_if_wired event w = (Return tt, w') /\
    db w' = db w /\
    published w' = published w ++ [event].
Proof.
  intros Hb Hc. unfold publish_if_wired, published. rewrite Hb.
  rewrite publish_effect by exact Hc.
  eexists. split; [reflexivity|]. simpl. split; reflexivity.
Qed.

(** X25: whatever the input, [UpdateUserUseCase.execute] ends in an exception:
    past the look-up and the email check it reads [user_data.phone_number],
    which no [UserUpdateDTO] has; the table and the history stay as they
    were. *)
Lemma UpdateUser_execute_raises (dj : Django) (env : Env) (user_id : Z)
    (user_data : UserUpdateDTO) (w : World) :
  exists e, UpdateUserUseCase.execute dj env user_id user_data w = (Raise e, w).
Proof.
  unfold UpdateUserUseCase.execute, bind, query.
  destruct (get_by_id env (db w) (Some user_id)) as [[user|]|e]; [| |eauto].
  2:{ unfold raise. eauto. }
  unfold UpdateUserUseCase.check_email.
  destruct (UpdateUserUseCase.email_is_being_updated user user_data) as [email|].
  - unfold bind, query.
    destruct (UserDomainService.is_email_unique env (db w) email (Some user_id))
      as [[|]|e]; simpl; unfold raise, ret; [| |eauto]; [|eauto].
    destruct (UpdateUserUseCase.apply_fields user user_data).
    unfold lift, UserUpdateDTO_get_phone_number. eauto.
  - unfold ret. destruct (UpdateUserUseCase.apply_fields user user_data).
    unfold lift, UserUpdateDTO_get_phone_number. eauto.
Qed.

(** C3 at alice, whose first name is "Alice", and a call that supplies
    "Alicia" as the first name, on a table whose validators and publisher
    raise nothing: past the look-up and the assignments [execute] reads
    [user_data.phone_number], which [UserUpdateDTO] does not declare, and
    raises [AttributeError]; nothing is saved, so the stored first name stays
    "Alice", and no [UserUpdatedEvent] is published.  A call that supplies
    no field ends the same way. *)
Theorem UpdateUser_raises_before_saving :
  let user_data := mkUserUpdateDTO (Some "Alicia") None None in
  get_by_id Reference.env Fixture.alice_db (Some 1) = Return (Some Fixture.alice) /\
  u_first_name Fixture.alice = Some "Alice" /\
  UpdateUserUseCase.execute Reference.django Reference.env 1 user_data Fixture.alice_world
    = (Raise (AttributeError "UserUpdateDTO" "phone_number"), Fixture.alice_world) /\
  dj_first_name <$> rows (db Fixture.alice_world) !! 1 = Some "Alice" /\
  published Fixture.alice_world = [] /\
  UpdateUserUseCase.execute Reference.django Reference.env 1
    (mkUserUpdateDTO None None None) Fixture.alice_world
    = (Raise (AttributeError "UserUpdateDTO" "phone_number"), Fixture.alice_world).
Proof. vm_compute. repeat split; reflexivity. Qed.

End UseCaseFacts.

(** ** Changing a password, saving, creating *)

Section CredentialFacts.

Import DjangoUserRepository.

(** What [get_by_id] builds never carries a password. *)
Lemma get_by_id_has_no_password (env : Env) (d : Db) (pk : option Z) (user : User) :
  get_by_id env d pk = Return (Some user) -> u_password user = None.
Proof.
  unfold get_by_id. destruct (objects_get_id d pk) as [r|e].
  - unfold _to_domain, User_new, User___post_init__. simpl.
    destruct (Str.truthy (dj_username r)); simpl; [|discriminate].
    destruct (Str.truthy (dj_email r)); simpl; [|discriminate].
    destruct (Re.match_anchored _ _); simpl; [|discriminate].
    intros H. injection H as <-. reflexivity.
  - destruct e; discriminate.
Qed.

(** X27: saving an entity that has a key writes the encoding of the entity's
    password, [None] included, over the stored credential of that key,
    unless the validators stop the save; stated for a model without a
    phone column. *)
Lemma save_overwrites_password (dj : Django) (env : Env) (d d' : Db) (entity : User)
    (pk : Z) (row : DjangoUser) (r : outcome User) :
  has_phone_number dj = false ->
  u_id entity = Some pk -> pk <> 0 ->
  rows d !! pk = Some row -> dj_id row = Some pk ->
  save dj env d entity = (r, d') ->
  (exists e, r = Raise e /\ d' = d) \/
  stored_password d' pk = Some (make_password dj (u_password entity)).
Proof.
  intros Hphone Hid Hnz Hrow Hkey.
  unfold save, _to_django, copy_phone_number.
  rewrite Hid, Hphone. simpl.
  destruct (Z.eqb_spec pk 0) as [->|_]; [congruence|]. simpl.
  rewrite Hrow. simpl.
  destruct (full_clean dj d _) as [[]|e].
  - unfold Model_save. simpl. rewrite Hkey.
    intros H. injection H as _ <-. right.
    unfold stored_password. simpl. rewrite lookup_insert_eq. reflexivity.
  - intros H. injection H as <- <-. left. eauto.
Qed.

(** C8 at a loaded entity with one changed name: alice is loaded by
    [get_by_id], only her last name is changed, and after [save] the stored
    credential is the unusable one, which her password no longer matches. *)
Theorem save_discards_stored_credential :
  get_by_id Reference.env Fixture.alice_db (Some 1) = Return (Some Fixture.alice) /\
  Reference.check_password "correct horse"
    (default "" (stored_password Fixture.alice_db 1)) = true /\
  let '(saved, db') :=
    save Reference.django Reference.env Fixture.alice_db
      (set_last_name Fixture.alice (Some "Hargreaves")) in
  (exists u, saved = Return u /\ u_last_name u = Some "Hargreaves") /\
  stored_password db' 1 = Some "!" /\
  Reference.check_password "correct horse" (default "" (stored_password db' 1)) = false.
Proof.
  vm_compute. repeat split; try reflexivity. eexists; split; reflexivity.
Qed.

(** C1 at a correct old password and a new password that the policy
    accepts: [execute] raises [AttributeError] at [user.check_password],
    nothing is stored and nothing is published.  The steps behind the check,
    run on their own, pass the policy, save and publish the event, but the
    credential that they store is the unusable one: [new_password] is never
    put on the entity. *)
Theorem ChangePassword_never_stores_new_password :
  Reference.check_password "correct horse"
    (default "" (stored_password Fixture.alice_db 1)) = true /\
  Reference.validate_password "battery staple" Fixture.alice_row = Return tt /\
  ChangePasswordUseCase.execute Reference.django Reference.env 1
    "correct horse" "battery staple" Fixture.alice_world
  = (Raise (AttributeError "User" "check_password"), Fixture.alice_world) /\
  let '(r, w') :=
    ChangePasswordUseCase.validate_save_publish Reference.django Reference.env
      Fixture.alice "battery staple" Fixture.alice_world in
  r = Return tt /\
  published w' = [PasswordChangedEvent (new_base Reference.env (Some 1)) (Some 1)] /\
  stored_password (db w') 1 = Some "!" /\
  Reference.check_password "battery staple" (default "" (stored_password (db w') 1)) = false.
Proof. vm_compute. repeat split; reflexivity. Qed.

(** X26: for every framework, table and input, [ChangePasswordUseCase.execute]
    ends in an exception and leaves the world as it was, and the exception
    is never the application's [ValidationError]. *)
Lemma ChangePassword_execute_raises (dj : Django) (env : Env) (user_id : Z)
    (old_password new_password : string) (w : World) :
  exists e,
    ChangePasswordUseCase.execute dj env user_id old_password new_password w
      = (Raise e, w) /\
    (forall message extra, e <> ApplicationError ValidationError message extra).
Proof.
  unfold ChangePasswordUseCase.execute, bind, query, get_by_id.
  destruct (objects_get_id (db w) (Some user_id)) as [r|e] eqn:Hget.
  - unfold obind.
    destruct (_to_domain env r) as [user|e] eqn:Hd.
    + unfold lift, User_check_password. eexists. split; [reflexivity|]. discriminate.
    + destruct (row_constructs r) eqn:Hc.
      * destruct (to_domain_of_constructible env r Hc) as (user & Hu & _). congruence.
      * destruct (to_domain_raises_unless_constructible env r Hc) as (msg & Hm).
        rewrite Hm in Hd. injection Hd as <-.
        eexists. split; [reflexivity|]. discriminate.
  - rewrite (objects_get_id_raises _ _ _ Hget). unfold raise, not_found.
    eexists. split; [reflexivity|]. discriminate.
Qed.

(** C6 at a wrong old password: the exception is [AttributeError], which is
    not an application error; nothing is published. *)
Theorem ChangePassword_wrong_old_password :
  Reference.check_password "wrong guess"
    (default "" (stored_password Fixture.alice_db 1)) = false /\
  let '(r, w') :=
    ChangePasswordUseCase.execute Reference.django Reference.env 1
      "wrong guess" "battery staple" Fixture.alice_world in
  r = Raise (AttributeError "User" "check_password") /\
  (forall e, r = Raise e -> is_application_error e = false) /\
  published w' = [].
Proof.
  vm_compute. repeat split; try reflexivity.
  intros e H. injection H as <-. reflexivity.
Qed.

(** C2 at an email that contains "Username": alice registers with
    [Username@example.com]; bob, whose name is free, registers with the same
    address and gets a conflict tagged [username]. *)
Theorem CreateUser_tags_duplicate_email_as_username :
  let first := mkUserCreateDTO "alice" "Username@example.com" "correct horse" None None in
  let second := mkUserCreateDTO "bob" "Username@example.com" "battery staple" None None in
  let '(r1, w1) :=
    CreateUserUseCase.execute Reference.django Reference.env first Reference.empty_world in
  let '(r2, w2) := CreateUserUseCase.execute Reference.django Reference.env second w1 in
  (exists view, r1 = Return view /\ dto_email view = "username@example.com") /\
  UserDomainService.is_username_unique Reference.env (db w1) "bob" None = Return true /\
  UserDomainService.is_email_unique Reference.env (db w1) "Username@example.com" None
    = Return false /\
  r2 = Raise (ApplicationError ConflictError
                "Email 'Username@example.com' is already taken"
                [("field", "username")]).
Proof.
  vm_compute. repeat split; try reflexivity. eexists; split; reflexivity.
Qed.

End CredentialFacts.

(** ** Which field a conflict is tagged with *)

Section ConflictTagFacts.

Lemma contains_app_r (needle a b : string) :
  Str.contains needle b = true -> Str.contains needle (a +:+ b) = true.
Proof.
  intros H. induction a as [|c a IH]; simpl; [exact H|].
  rewrite IH. apply orb_true_r.
Qed.

(** A needle without [q] cannot run across a [q]. *)
Lemma startswith_app_sep (q : ascii) (rest : string) (needle v : string) :
  forallb (fun c => negb (Ascii.eqb c q)) (list_ascii_of_string needle) = true ->
  Str.startswith needle (v +:+ String q rest) = Str.startswith needle v.
Proof.
  revert v. induction needle as [|a needle IH]; intros v Hq; [destruct v; reflexivity|].
  simpl in Hq. apply andb_prop in Hq as [Ha Hq].
  destruct v as [|b v]; simpl.
  - apply negb_true_iff in Ha. rewrite Ha. reflexivity.
  - rewrite IH by exact Hq. reflexivity.
Qed.

Lemma contains_app_sep (q : ascii) (rest : string) (needle v : string) :
  forallb (fun c => negb (Ascii.eqb c q)) (list_ascii_of_string needle) = true ->
  Str.contains needle (String q rest) = false ->
  Str.contains needle (v +:+ String q rest) =
  Str.contains needle v || Str.startswith needle "".
Proof.
  intros Hq Hrest. induction v as [|c v IH].
  - change ("" +:+ String q rest) with (String q rest). rewrite Hrest.
    destruct needle; [discriminate Hrest|reflexivity].
  - change (String c v +:+ String q rest) with (String c (v +:+ String q rest)).
    cbn [Str.contains]. rewrite IH.
    change (String c (v +:+ String q rest)) with (String c v +:+ String q rest).
    rewrite startswith_app_sep by exact Hq.
    rewrite orb_assoc. reflexivity.
Qed.

(** A duplicate user name is always tagged [username]. *)
Lemma username_conflict_tag (username : string) :
  CreateUserUseCase.translate
    (DomainException BusinessRuleViolationError
       ("Username '" +:+ username +:+ "' is already taken") [])
  = ApplicationError ConflictError ("Username '" +:+ username +:+ "' is already taken")
      [("field", "username")].
Proof.
  unfold CreateUserUseCase.translate.
  rewrite contains_app_r by (apply contains_app_r; reflexivity).
  reflexivity.
Qed.

(** A duplicate email is tagged [email] exactly when the address as the
    caller typed it has no "Username" in it. *)
Lemma email_conflict_tag (email : string) :
  CreateUserUseCase.translate
    (DomainException BusinessRuleViolationError
       ("Email '" +:+ email +:+ "' is already taken") [])
  = ApplicationError ConflictError ("Email '" +:+ email +:+ "' is already taken")
      [("field", if Str.contains "Username" email then "username" else "email")].
Proof.
  unfold CreateUserUseCase.translate.
  rewrite contains_app_r by (apply contains_app_r; reflexivity).
  assert (Str.contains "Username" ("Email '" +:+ email +:+ "' is already taken")
          = Str.contains "Username" email) as ->; [|reflexivity].
  change (Str.contains "Username" ("Email '" +:+ email +:+ "' is already taken"))
    with (Str.contains "Username" (email +:+ "' is already taken")).
  rewrite (contains_app_sep "'" " is already taken" "Username" email)
    by reflexivity.
  apply orb_false_r.
Qed.

End ConflictTagFacts.

(** ** Normalisation of strings *)

Section NormalisationFacts.

Lemma lower_char_idem (c : ascii) : Str.lower_char (Str.lower_char c) = Str.lower_char c.
Proof. destruct c as [[] [] [] [] [] [] [] []]; reflexivity. Qed.

Lemma is_space_lower_char (c : ascii) : Str.is_space (Str.lower_char c) = Str.is_space c.
Proof. destruct c as [[] [] [] [] [] [] [] []]; reflexivity. Qed.

Lemma lower_idem (s : string) : Str.lower (Str.lower s) = Str.lower s.
Proof.
  induction s as [|c s IH]; simpl; [reflexivity|].
  rewrite lower_char_idem, IH. reflexivity.
Qed.

Lemma lower_lstrip (s : string) : Str.lower (Str.lstrip s) = Str.lstrip (Str.lower s).
Proof.
  induction s as [|c s IH]; simpl; [reflexivity|].
  rewrite is_space_lower_char. destruct (Str.is_space c); [exact IH|reflexivity].
Qed.

Lemma lower_rstrip (s : string) : Str.lower (Str.rstrip s) = Str.rstrip (Str.lower s).
Proof.
  induction s as [|c s IH]; simpl; [reflexivity|].
  rewrite <- IH, is_space_lower_char.
  destruct (Str.rstrip s) as [|a r]; simpl.
  - destruct (Str.is_space c); reflexivity.
  - reflexivity.
Qed.

Lemma lower_strip (s : string) : Str.lower (Str.strip s) = Str.strip (Str.lower s).
Proof. unfold Str.strip. rewrite lower_lstrip, lower_rstrip. reflexivity. Qed.

Lemma lstrip_idem (s : string) : Str.lstrip (Str.lstrip s) = Str.lstrip s.
Proof.
  induction s as [|c s IH]; simpl; [reflexivity|].
  destruct (Str.is_space c) eqn:Hc; [exact IH|]. simpl. rewrite Hc. reflexivity.
Qed.

Lemma rstrip_idem (s : string) : Str.rstrip (Str.rstrip s) = Str.rstrip s.
Proof.
  induction s as [|c s IH]; simpl; [reflexivity|].
  destruct (Str.rstrip s) as [|a r] eqn:Hr.
  - destruct (Str.is_space c) eqn:Hc; simpl; [reflexivity|]. rewrite Hc. reflexivity.
  - cbn [Str.rstrip] in IH |- *. rewrite IH. reflexivity.
Qed.

(** Dropping leading white space leaves a string without trailing white
    space without trailing white space. *)
Lemma rstrip_lstrip_fixed (s : string) :
  Str.rstrip s = s -> Str.rstrip (Str.lstrip s) = Str.lstrip s.
Proof.
  induction s as [|c s IH]; intros Hfix; [reflexivity|].
  cbn [Str.lstrip]. destruct (Str.is_space c) eqn:Hc; [|exact Hfix].
  apply IH. cbn [Str.rstrip] in Hfix.
  destruct (Str.rstrip s) as [|a r] eqn:Hr.
  - rewrite Hc in Hfix. discriminate.
  - injection Hfix as <-. reflexivity.
Qed.

Lemma strip_idem (s : string) : Str.strip (Str.strip s) = Str.strip s.
Proof.
  unfold Str.strip.
  rewrite (rstrip_lstrip_fixed (Str.rstrip s)) by apply rstrip_idem.
  apply lstrip_idem.
Qed.

(** A string that starts with a character other than white space keeps it
    in front when it is trimmed. *)
Lemma strip_keeps_head (c : ascii) (s : string) :
  Str.is_space c = false -> exists r, Str.strip (String c s) = String c r.
Proof.
  intros Hc. unfold Str.strip. cbn [Str.rstrip].
  destruct (Str.rstrip s) as [|a r]; rewrite ?Hc; cbn [Str.lstrip]; rewrite Hc; eauto.
Qed.

End NormalisationFacts.

(** ** The entity built twice *)

Section RebuildFacts.

Lemma normalise_idem (s : string) :
  Str.strip (Str.lower (Str.strip (Str.lower s))) = Str.strip (Str.lower s).
Proof. rewrite lower_strip, lower_idem. apply strip_idem. Qed.

(** What a successful construction tells about its input. *)
Lemma User_new_inv (fields u : User) :
  User_new fields = Return u ->
  Str.truthy (u_username fields) = true /\
  Str.truthy (u_email fields) = true /\
  Re.match_anchored ValueObjects.username_pattern (u_username fields) = true /\
  u = set_email fields (Str.strip (Str.lower (u_email fields))).
Proof.
  unfold User_new, User___post_init__.
  destruct (Str.truthy (u_username fields)); simpl; [|discriminate].
  destruct (Str.truthy (u_email fields)); simpl; [|discriminate].
  destruct (Re.match_anchored _ (u_username fields)); simpl; [|discriminate].
  intros H. injection H as <-. auto.
Qed.

Lemma User_new_ok (fields : User) :
  Str.truthy (u_username fields) = true ->
  Str.truthy (u_email fields) = true ->
  Re.match_anchored ValueObjects.username_pattern (u_username fields) = true ->
  User_new fields = Return (set_email fields (Str.strip (Str.lower (u_email fields)))).
Proof.
  intros Hu He Hm. unfold User_new, User___post_init__.
  rewrite Hu, He. simpl. rewrite Hm. reflexivity.
Qed.

(** X1: an entity that came out of the constructor with a non-empty email
    goes through the constructor again unchanged. *)
Theorem User_new_rebuild (fields u : User) :
  User_new fields = Return u -> u_email u <> "" -> User_new u = Return u.
Proof.
  intros Hnew Hne.
  destruct (User_new_inv fields u Hnew) as (Hname & _ & Hm & Hu).
  rewrite User_new_ok.
  - f_equal. rewrite Hu. unfold set_email. simpl. rewrite normalise_idem. reflexivity.
  - rewrite Hu. exact Hname.
  - apply truthy_iff. exact Hne.
  - rewrite Hu. exact Hm.
Qed.

Lemma User_new_rebuild_witness :
  User_new Fixture.alice = Return Fixture.alice.
Proof.
  apply (User_new_rebuild
           (mkUser (Some 1) (Some 1600000000) (utcnow Reference.env) "alice"
              " Alice@Example.com" (Some "Alice") (Some "Liddell")
              true false false false None None)).
  - reflexivity.
  - discriminate.
Defined.

End RebuildFacts.

(** ** The repository and its table *)

Section RepositoryFacts.

Import DjangoUserRepository.

Lemma id_truthy_some (pk : Z) : id_truthy (Some pk) = true <-> pk <> 0.
Proof. simpl. destruct (Z.eqb_spec pk 0); simpl; split; congruence. Qed.

(** Every way [save] can end, on a well-formed table: it raises and leaves
    the table alone, or it writes one row under [save_key] and returns what
    [_to_domain] makes of that row. *)
Lemma save_cases (dj : Django) (env : Env) (d d' : Db) (entity : User) (r : outcome User) :
  db_wf d ->
  save dj env d entity = (r, d') ->
  (d' = d /\ exists e, r = Raise e) \/
  (exists base,
      let row := with_id (written_row dj entity base) (save_key d entity) in
      rows d' = <[save_key d entity := row]> (rows d) /\
      next_id d <= next_id d' /\ save_key d entity < next_id d' /\
      r = _to_domain env row).
Proof.
  intros Hwf. unfold save, _to_django, save_key.
  destruct (u_id entity) as [pk|] eqn:Hid.
  - destruct (id_truthy (Some pk)) eqn:Ht.
    + unfold objects_get_id.
      destruct (rows d !! pk) as [base|] eqn:Hrow; simpl.
      2:{ intros H. injection H as <- <-. left. eauto. }
      destruct (Hwf pk base Hrow) as [Hkey Hlt].
      unfold copy_phone_number. destruct (has_phone_number dj) eqn:Hp.
      * unfold User_get_phone_number.
        destruct (u_phone_number entity) as [pn|] eqn:Hpn; simpl.
        2:{ intros H. injection H as <- <-. left. eauto. }
        destruct (full_clean dj d _) as [[]|e] eqn:Hc.
        2:{ intros H. injection H as <- <-. left. eauto. }
        unfold Model_save. simpl. rewrite Hkey.
        intros H. injection H as <- <-. right. exists base. simpl.
        unfold written_row, with_id, set_password. rewrite Hp, Hpn, Hkey. simpl.
        repeat split; try reflexivity; lia.
      * destruct (full_clean dj d _) as [[]|e] eqn:Hc.
        2:{ intros H. injection H as <- <-. left. eauto. }
        unfold Model_save. simpl. rewrite Hkey.
        intros H. injection H as <- <-. right. exists base. simpl.
        unfold written_row, with_id, set_password. rewrite Hp, Hkey. simpl.
        repeat split; try reflexivity; lia.
    + pose (base := mkDjangoUser None "" "" "" "" false false false false ""
                      (default_date_joined dj (utcnow env)) None).
      unfold copy_phone_number. destruct (has_phone_number dj) eqn:Hp.
      * unfold User_get_phone_number.
        destruct (u_phone_number entity) as [pn|] eqn:Hpn; simpl.
        2:{ intros H. injection H as <- <-. left. eauto. }
        destruct (full_clean dj d _) as [[]|e] eqn:Hc.
        2:{ intros H. injection H as <- <-. left. eauto. }
        unfold Model_save. simpl.
        intros H. injection H as <- <-. right. exists base. simpl.
        unfold written_row, with_id, set_password. rewrite Hp, Hpn. simpl.
        repeat split; try reflexivity; lia.
      * destruct (full_clean dj d _) as [[]|e] eqn:Hc.
        2:{ intros H. injection H as <- <-. left. eauto. }
        unfold Model_save. simpl.
        intros H. injection H as <- <-. right. exists base. simpl.
        unfold written_row, with_id, set_password. rewrite Hp. simpl.
        repeat split; try reflexivity; lia.
  - simpl.
    pose (base := mkDjangoUser None "" "" "" "" false false false false ""
                    (default_date_joined dj (utcnow env)) None).
    unfold copy_phone_number. destruct (has_phone_number dj) eqn:Hp.
    + unfold User_get_phone_number.
      destruct (u_phone_number entity) as [pn|] eqn:Hpn; simpl.
      2:{ intros H. injection H as <- <-. left. eauto. }
      destruct (full_clean dj d _) as [[]|e] eqn:Hc.
      2:{ intros H. injection H as <- <-. left. eauto. }
      unfold Model_save. simpl.
      intros H. injection H as <- <-. right. exists base. simpl.
      unfold written_row, with_id, set_password. rewrite Hp, Hpn. simpl.
      repeat split; try reflexivity; lia.
    + destruct (full_clean dj d _) as [[]|e] eqn:Hc.
      2:{ intros H. injection H as <- <-. left. eauto. }
      unfold Model_save. simpl.
      intros H. injection H as <- <-. right. exists base. simpl.
      unfold written_row, with_id, set_password. rewrite Hp. simpl.
      repeat split; try reflexivity; lia.
Qed.


Lemma empty_db_wf : db_wf Reference.empty_db.
Proof. intros k r H. simpl in H. rewrite lookup_empty in H. discriminate. Qed.

Lemma alice_db_wf : db_wf Fixture.alice_db.
Proof.
  intros k r H. simpl in H. apply lookup_singleton_Some in H as [<- <-].
  split; reflexivity.
Qed.

(** X2: on a table keyed by primary key, [save] keeps the table keyed by
    primary key with every key below the next key, however it ends. *)
Theorem save_preserves_wf (dj : Django) (env : Env) (d d' : Db) (entity : User)
    (r : outcome User) :
  db_wf d -> save dj env d entity = (r, d') -> db_wf d'.
Proof.
  intros Hwf Hsave.
  destruct (save_cases dj env d d' entity r Hwf Hsave)
    as [[-> _]|(base & Hrows & Hle & Hlt & _)]; [exact Hwf|].
  intros k row. rewrite Hrows, lookup_insert.
  destruct (decide (save_key d entity = k)) as [<-|Hne].
  - intros H. injection H as <-. split; [reflexivity|exact Hlt].
  - intros H. destruct (Hwf k row H) as [Hk Hb]. split; [exact Hk|lia].
Qed.

Lemma save_preserves_wf_witness :
  db_wf (snd (save Reference.django Reference.env Fixture.alice_db Fixture.bob)).
Proof.
  apply (save_preserves_wf Reference.django Reference.env Fixture.alice_db
           (snd (save Reference.django Reference.env Fixture.alice_db Fixture.bob))
           Fixture.bob
           (fst (save Reference.django Reference.env Fixture.alice_db Fixture.bob))
           alice_db_wf).
  reflexivity.
Defined.

(** X3: [save] writes at most one row, the one under the entity's key (a
    fresh key for an entity without one); every other row stays as it was. *)
Theorem save_touches_one_row (dj : Django) (env : Env) (d d' : Db) (entity : User)
    (r : outcome User) (k : Z) :
  db_wf d -> save dj env d entity = (r, d') -> k <> save_key d entity ->
  rows d' !! k = rows d !! k.
Proof.
  intros Hwf Hsave Hne.
  destruct (save_cases dj env d d' entity r Hwf Hsave)
    as [[-> _]|(base & Hrows & _)]; [reflexivity|].
  rewrite Hrows. apply lookup_insert_ne. congruence.
Qed.

Lemma save_touches_one_row_witness :
  rows (snd (save Reference.django Reference.env Fixture.alice_db Fixture.bob)) !! 1
  = rows Fixture.alice_db !! 1.
Proof.
  apply (save_touches_one_row Reference.django Reference.env Fixture.alice_db
           (snd (save Reference.django Reference.env Fixture.alice_db Fixture.bob))
           Fixture.bob
           (fst (save Reference.django Reference.env Fixture.alice_db Fixture.bob))
           1 alice_db_wf).
  - reflexivity.
  - vm_compute. discriminate.
Defined.

(** X4: what a successful [save] returns carries the entity's key as its
    identity, and a [get_by_id] with that identity afterwards, which reads
    the clock anew, finds the same entity but for [updated_at], which is the
    later reading. *)
Theorem save_then_get_by_id (dj : Django) (env env' : Env) (d d' : Db)
    (entity saved : User) :
  db_wf d -> save dj env d entity = (Return saved, d') ->
  u_id saved = Some (save_key d entity) /\
  get_by_id env' d' (u_id saved) = Return (Some (set_updated_at saved (utcnow env'))).
Proof.
  intros Hwf Hsave.
  destruct (save_cases dj env d d' entity _ Hwf Hsave)
    as [[_ [e He]]|(base & Hrows & _ & _ & Hr)]; [discriminate|].
  symmetry in Hr.
  destruct (User_new_inv _ _ Hr) as (Hname & Hemail & Hm & Hu).
  assert (u_id saved = Some (save_key d entity)) as Hid by (rewrite Hu; reflexivity).
  split; [exact Hid|].
  rewrite Hid. unfold get_by_id, objects_get_id.
  rewrite Hrows, lookup_insert_eq. unfold _to_domain.
  rewrite User_new_ok by assumption.
  rewrite Hu. reflexivity.
Qed.

Lemma save_then_get_by_id_witness :
  let '(r, d') := save Reference.django Reference.env Fixture.alice_db Fixture.bob in
  exists saved,
    r = Return saved /\ u_id saved = Some 2 /\ u_email saved = "bob@example.com" /\
    u_updated_at saved = 1700000000 /\
    get_by_id (mkEnv 1700000060 "") d' (Some 2)
      = Return (Some (set_updated_at saved 1700000060)).
Proof.
  destruct (save Reference.django Reference.env Fixture.alice_db Fixture.bob)
    as [r d'] eqn:Hsave.
  assert (exists saved, r = Return saved /\ u_email saved = "bob@example.com" /\
                        u_updated_at saved = 1700000000)
    as (saved & -> & Hemail & Hupdated).
  { vm_compute in Hsave. injection Hsave as <- _. eexists. repeat split; reflexivity. }
  destruct (save_then_get_by_id Reference.django Reference.env (mkEnv 1700000060 "")
              Fixture.alice_db d' Fixture.bob saved alice_db_wf Hsave) as [Hid Hget].
  exists saved. rewrite Hid in Hget. split; [reflexivity|]. split; [exact Hid|].
  split; [exact Hemail|]. split; [exact Hupdated|exact Hget].
Defined.

(** X5: [delete] does nothing for an entity without a key; otherwise the
    key is gone afterwards, [get_by_id] answers [None] for it, every other
    row stays, and deleting again changes nothing. *)
Theorem delete_removes_only_the_key (env : Env) (d : Db) (entity : User) :
  (id_truthy (u_id entity) = false -> delete d entity = d) /\
  (id_truthy (u_id entity) = true ->
   get_by_id env (delete d entity) (u_id entity) = Return None) /\
  (forall k, u_id entity <> Some k -> rows (delete d entity) !! k = rows d !! k) /\
  delete (delete d entity) entity = delete d entity /\
  (db_wf d -> db_wf (delete d entity)).
Proof.
  unfold delete. destruct (u_id entity) as [pk|] eqn:Hid.
  2:{ split; [reflexivity|]. split; [intros Hf; discriminate Hf|].
      split; [reflexivity|]. split; [reflexivity|]. exact (fun Hwf => Hwf). }
  destruct (id_truthy (Some pk)) eqn:Ht.
  - split; [intros Hf; discriminate Hf|]. split; [|split; [|split]].
    + intros _. unfold get_by_id, objects_get_id. simpl.
      rewrite lookup_delete_eq. reflexivity.
    + intros k Hk. simpl. apply lookup_delete_ne. congruence.
    + simpl. f_equal. apply map_eq. intros k.
      destruct (decide (pk = k)) as [<-|Hk].
      * rewrite !lookup_delete_eq. reflexivity.
      * rewrite !lookup_delete_ne by exact Hk. reflexivity.
    + intros Hwf k r. simpl. intros H.
      apply lookup_delete_Some in H as [_ H]. exact (Hwf k r H).
  - split; [reflexivity|]. split; [intros Hf; discriminate Hf|].
    split; [reflexivity|]. split; [reflexivity|]. exact (fun Hwf => Hwf).
Qed.

Lemma filter_nil_existsb {A} (p : A -> bool) (l : list A) :
  List.filter p l = [] <-> existsb p l = false.
Proof.
  induction l as [|a l IH]; simpl; [tauto|].
  destruct (p a); simpl; [split; discriminate|exact IH].
Qed.

Lemma get_by_none_iff (env : Env) (d : Db) (p : DjangoUser -> bool) :
  match objects_get_by p d with
  | Return django_user => try! user := _to_domain env django_user in Return (Some user)
  | Raise DoesNotExist => Return None
  | Raise e => Raise e
  end = Return None <-> existsb p (all_rows d) = false.
Proof.
  rewrite <- filter_nil_existsb. unfold objects_get_by.
  destruct (List.filter p (all_rows d)) as [|r [|r' l]].
  - tauto.
  - split; [|discriminate]. unfold obind.
    destruct (_to_domain env r); discriminate.
  - split; discriminate.
Qed.

(** X6: [get_by_username] and [get_by_email] answer [None] exactly when
    [exists_by_username] and [exists_by_email] answer [False]; both email
    look-ups compare the lower-cased argument with the stored text. *)
Theorem get_by_agrees_with_exists (env : Env) (d : Db) (value : string) :
  (get_by_username env d value = Return None <-> exists_by_username d value = false) /\
  (get_by_email env d value = Return None <-> exists_by_email d value = false) /\
  exists_by_email d value = exists_by_email d (Str.lower value).
Proof.
  split; [apply get_by_none_iff|]. split; [apply get_by_none_iff|].
  unfold exists_by_email. rewrite lower_idem. reflexivity.
Qed.


Lemma to_domain_all_ok (env : Env) (django_users : list DjangoUser) :
  Forall (fun r => row_constructs r = true) django_users ->
  exists users,
    to_domain_all env django_users = Return users /\
    List.map _to_dto users = List.map view_of_row django_users /\
    List.map u_is_active users = List.map dj_is_active django_users.
Proof.
  induction 1 as [|r rs Hr _ (users & Hall & Hviews & Hact)]; simpl.
  - exists []. repeat split; reflexivity.
  - destruct (to_domain_of_constructible env r Hr) as (user & Hu & Hv & Ha).
    rewrite Hu, Hall. simpl. exists (user :: users). simpl.
    rewrite Hv, Ha, Hviews, Hact. repeat split; reflexivity.
Qed.

Lemma to_domain_all_raises (env : Env) (django_users : list DjangoUser) :
  Exists (fun r => row_constructs r = false) django_users ->
  exists msg, to_domain_all env django_users = Raise (ValueError msg).
Proof.
  induction 1 as [r rs Hr|r rs _ (msg & IH)]; simpl.
  - destruct (to_domain_raises_unless_constructible env r Hr) as (msg & ->).
    simpl. eauto.
  - destruct (row_constructs r) eqn:Hr.
    + destruct (to_domain_of_constructible env r Hr) as (user & -> & _).
      simpl. rewrite IH. simpl. eauto.
    + destruct (to_domain_raises_unless_constructible env r Hr) as (msg' & ->).
      simpl. eauto.
Qed.

(** X7: when every stored row passes the entity's constructor, [get_all]
    returns one entity per row with the view of that row, and
    [get_active_users] returns exactly the entities of the active rows, all
    of them active. *)
Theorem listings_return_the_rows (env : Env) (d : Db) :
  Forall (fun r => row_constructs r = true) (all_rows d) ->
  (exists users,
      get_all env d = Return users /\
      List.map _to_dto users = List.map view_of_row (all_rows d)) /\
  (exists users,
      get_active_users env d = Return users /\
      List.map _to_dto users =
        List.map view_of_row (List.filter dj_is_active (all_rows d)) /\
      Forall (fun u => u_is_active u = true) users).
Proof.
  intros Hall. split.
  - destruct (to_domain_all_ok env (all_rows d) Hall) as (users & Hr & Hv & _). eauto.
  - assert (Forall (fun r => row_constructs r = true)
              (List.filter dj_is_active (all_rows d))) as Hact.
    { apply List.Forall_forall. intros r Hin. apply List.filter_In in Hin as [Hin _].
      revert r Hin. apply List.Forall_forall. exact Hall. }
    destruct (to_domain_all_ok env _ Hact) as (users & Hr & Hv & Ha).
    exists users. split; [exact Hr|]. split; [exact Hv|].
    apply List.Forall_forall. intros u Hin.
    apply (List.in_map u_is_active) in Hin. rewrite Ha in Hin.
    apply List.in_map_iff in Hin as (r & Hra & Hrin).
    apply List.filter_In in Hrin as [_ Hr']. congruence.
Qed.

Lemma listings_return_the_rows_witness :
  exists users,
    get_active_users Reference.env Fixture.alice_db = Return users /\
    List.map u_username users = ["alice"].
Proof.
  destruct (listings_return_the_rows Reference.env Fixture.alice_db)
    as (_ & users & Hr & _ & _).
  - vm_compute. repeat constructor.
  - exists users. split; [exact Hr|].
    vm_compute in Hr. injection Hr as <-. reflexivity.
Defined.

(** X8: one stored row that fails the entity's constructor makes [get_all]
    raise the constructor's [ValueError], and an active one makes
    [get_active_users] raise it too. *)
Theorem listings_raise_on_a_bad_row (env : Env) (d : Db) (r : DjangoUser) :
  In r (all_rows d) -> row_constructs r = false ->
  (exists msg, get_all env d = Raise (ValueError msg)) /\
  (dj_is_active r = true ->
   exists msg, get_active_users env d = Raise (ValueError msg)).
Proof.
  intros Hin Hbad. split.
  - apply to_domain_all_raises. apply List.Exists_exists. eauto.
  - intros Ha. apply to_domain_all_raises. apply List.Exists_exists.
    exists r. split; [|exact Hbad]. apply List.filter_In. auto.
Qed.

Lemma listings_raise_on_a_bad_row_witness :
  exists msg, get_all Reference.env (db Fixture.dotted_world) = Raise (ValueError msg).
Proof.
  destruct (listings_raise_on_a_bad_row Reference.env (db Fixture.dotted_world)
              Fixture.dotted_row) as [Hall _].
  - vm_compute. left. reflexivity.
  - reflexivity.
  - exact Hall.
Defined.

End RepositoryFacts.

(** ** Creating, reading and updating users *)

Section UserUseCaseFacts.

Import DjangoUserRepository.
Import ValueObjects.

Lemma Username_new_ok (s : string) :
  Re.match_anchored username_pattern s = true -> Username_new s = Return (mkUsername s).
Proof.
  intros Hm. unfold Username_new.
  rewrite (match_anchored_nonempty _ _ username_pattern_not_nullable Hm), Hm. reflexivity.
Qed.

Lemma Username_new_fails (s : string) :
  Re.match_anchored username_pattern s = false ->
  Username_new s = Raise (ValueError "Username cannot be empty") \/
  Username_new s = Raise (ValueError "Invalid username format").
Proof.
  intros Hm. unfold Username_new. rewrite Hm.
  destruct (Str.truthy s); simpl; auto.
Qed.

Lemma Email_new_ok (s : string) :
  Re.match_anchored email_pattern s = true ->
  Email_new s = Return (mkEmail (Str.strip (Str.lower s))).
Proof.
  intros Hm. unfold Email_new.
  rewrite (match_anchored_nonempty _ _ email_pattern_not_nullable Hm), Hm. reflexivity.
Qed.

Lemma Email_new_fails (s : string) :
  Re.match_anchored email_pattern s = false ->
  Email_new s = Raise (ValueError "Email cannot be empty") \/
  Email_new s = Raise (ValueError "Invalid email format").
Proof.
  intros Hm. unfold Email_new. rewrite Hm.
  destruct (Str.truthy s); simpl; auto.
Qed.

(** X9: [CreateUserUseCase.execute] answers a user name or an email that
    its value object rejects with the application's [ValidationError],
    whose message names the field that failed; nothing is stored and nothing
    is published. *)
Theorem CreateUser_rejects_invalid_input (dj : Django) (env : Env)
    (user_data : UserCreateDTO) (w : World) :
  Re.match_anchored username_pattern (c_username user_data) = false \/
  Re.match_anchored email_pattern (c_email user_data) = false ->
  exists message,
    CreateUserUseCase.execute dj env user_data w
      = (Raise (ApplicationError ValidationError message []), w) /\
    (Str.startswith "Invalid username: " message = true \/
     Str.startswith "Invalid email: " message = true).
Proof.
  intros Hbad. unfold CreateUserUseCase.execute, UserDomainService.validate_user_creation.
  destruct (Re.match_anchored username_pattern (c_username user_data)) eqn:Hu.
  - destruct Hbad as [Hbad|Hbad]; [discriminate|].
    rewrite (Username_new_ok _ Hu). simpl.
    destruct (Email_new_fails _ Hbad) as [-> | ->]; simpl;
      eexists; (split; [reflexivity|right; reflexivity]).
  - destruct (Username_new_fails _ Hu) as [-> | ->]; simpl;
      eexists; (split; [reflexivity|left; reflexivity]).
Qed.

Lemma CreateUser_rejects_invalid_input_witness :
  exists message,
    CreateUserUseCase.execute Reference.django Reference.env
      (mkUserCreateDTO "john.doe" "john@example.com" "pw" None None) Fixture.alice_world
    = (Raise (ApplicationError ValidationError message []), Fixture.alice_world).
Proof.
  destruct (CreateUser_rejects_invalid_input Reference.django Reference.env
              (mkUserCreateDTO "john.doe" "john@example.com" "pw" None None)
              Fixture.alice_world) as (message & Hrun & _).
  - left. reflexivity.
  - exists message. exact Hrun.
Defined.

(** X10: with a well-formed user name and email, a user name that
    [get_by_username] finds makes [execute] raise [ConflictError] tagged
    [username]; a free user name with an email that [get_by_email] finds
    makes it raise [ConflictError] about the email; either way nothing is
    stored and nothing is published. *)
Theorem CreateUser_conflicts (dj : Django) (env : Env) (user_data : UserCreateDTO)
    (w : World) (existing : User) :
  Re.match_anchored username_pattern (c_username user_data) = true ->
  Re.match_anchored email_pattern (c_email user_data) = true ->
  (get_by_username env (db w) (c_username user_data) = Return (Some existing) ->
   CreateUserUseCase.execute dj env user_data w
   = (Raise (ApplicationError ConflictError
               ("Username '" +:+ c_username user_data +:+ "' is already taken")
               [("field", "username")]), w)) /\
  (get_by_username env (db w) (c_username user_data) = Return None ->
   get_by_email env (db w) (c_email user_data) = Return (Some existing) ->
   CreateUserUseCase.execute dj env user_data w
   = (Raise (ApplicationError ConflictError
               ("Email '" +:+ c_email user_data +:+ "' is already taken")
               [("field",
                 if Str.contains "Username" (c_email user_data)
                 then "username" else "email")]), w)).
Proof.
  intros Hu He.
  unfold CreateUserUseCase.execute, UserDomainService.validate_user_creation.
  rewrite (Username_new_ok _ Hu), (Email_new_ok _ He). simpl.
  unfold UserDomainService.is_username_unique, UserDomainService.is_email_unique.
  split.
  - intros ->.
    cbn [obind negb andb id_truthy UserDomainService.is_excluded
         UserDomainService.business_rule_violation].
    rewrite username_conflict_tag. reflexivity.
  - intros -> ->.
    cbn [obind negb andb id_truthy UserDomainService.is_excluded
         UserDomainService.business_rule_violation].
    rewrite email_conflict_tag. reflexivity.
Qed.

Lemma CreateUser_conflicts_witness :
  CreateUserUseCase.execute Reference.django Reference.env
    (mkUserCreateDTO "alice" "other@example.com" "pw" None None) Fixture.alice_world
  = (Raise (ApplicationError ConflictError "Username 'alice' is already taken"
              [("field", "username")]), Fixture.alice_world).
Proof.
  apply (CreateUser_conflicts Reference.django Reference.env
           (mkUserCreateDTO "alice" "other@example.com" "pw" None None)
           Fixture.alice_world Fixture.alice); reflexivity.
Defined.


Lemma local_char_not_space (c : ascii) :
  local_char c = true -> Str.is_space (Str.lower_char c) = false.
Proof.
  destruct c as [[] [] [] [] [] [] [] []]; intros H; try reflexivity; discriminate H.
Qed.

(** An address that the pattern admits starts with a character of the
    local part. *)
Lemma email_head (s : string) :
  Re.match_anchored email_pattern s = true ->
  exists c t, s = String c t /\ local_char c = true.
Proof.
  intros Hm.
  assert (forall u, Re.Matches email_pattern u ->
                    exists c t, u = String c t /\ local_char c = true) as Hhead.
  { intros u Hu. unfold email_pattern, Re.Plus in Hu.
    inversion Hu as [| |? ? s1 s2 H1 _| | | |]; subst.
    inversion H1 as [| |? ? s11 s12 H11 _| | | |]; subst.
    inversion H11 as [|? c Hc| | | | |]; subst.
    exists c, (s12 +:+ s2). split; [reflexivity|exact Hc]. }
  apply match_anchored_spec in Hm as [Hm|(s' & -> & Hm)].
  - apply Hhead. exact Hm.
  - destruct (Hhead s' Hm) as (c & t & -> & Hc).
    exists c, (t +:+ String (ascii_of_N 10) ""). split; [reflexivity|exact Hc].
Qed.

Lemma normalised_email_truthy (s : string) :
  Re.match_anchored email_pattern s = true ->
  Str.truthy (Str.strip (Str.lower s)) = true.
Proof.
  intros Hm. destruct (email_head s Hm) as (c & t & -> & Hc).
  cbn [Str.lower].
  destruct (strip_keeps_head (Str.lower_char c) (Str.lower t) (local_char_not_space c Hc))
    as (r & ->).
  reflexivity.
Qed.

Lemma get_by_username_none (env : Env) (d : Db) (username : string) :
  exists_by_username d username = false -> get_by_username env d username = Return None.
Proof. apply get_by_none_iff. Qed.

Lemma get_by_email_none (env : Env) (d : Db) (email : string) :
  exists_by_email d email = false -> get_by_email env d email = Return None.
Proof. apply get_by_none_iff. Qed.

Lemma validate_user_creation_ok (env : Env) (d : Db) (username email : string) :
  Re.match_anchored username_pattern username = true ->
  Re.match_anchored email_pattern email = true ->
  exists_by_username d username = false ->
  exists_by_email d email = false ->
  UserDomainService.validate_user_creation env d username email = Return tt.
Proof.
  intros Hu He Hfu Hfe. unfold UserDomainService.validate_user_creation.
  rewrite (Username_new_ok _ Hu), (Email_new_ok _ He).
  unfold UserDomainService.is_username_unique, UserDomainService.is_email_unique.
  rewrite (get_by_username_none env d _ Hfu), (get_by_email_none env d _ Hfe).
  reflexivity.
Qed.

(** X11: for a well-formed user name and email that no row carries, a
    model without a phone column, validators that accept the new row
    whenever it was joined, and a publisher whose subscribers for
    [UserCreatedEvent] are contained, [execute] stores the row under the
    next key with the encoded password and the lower-cased, trimmed email,
    returns the view of that row, and publishes exactly one
    [UserCreatedEvent] for the new identity with that user name and email.
    The instant of the row and the identifier and instant of the event are
    readings of their own and are left open. *)
Theorem CreateUser_succeeds (dj : Django) (env : Env) (user_data : UserCreateDTO)
    (w : World) (b : Bus) :
  Re.match_anchored username_pattern (c_username user_data) = true ->
  Re.match_anchored email_pattern (c_email user_data) = true ->
  exists_by_username (db w) (c_username user_data) = false ->
  exists_by_email (db w) (c_email user_data) = false ->
  has_phone_number dj = false ->
  (forall date_joined,
      full_clean dj (db w) (created_row dj user_data date_joined) = Return tt) ->
  bus w = Some b ->
  (forall event,
      type_of event = UserCreatedEvent_cls ->
      all_contained (subscribers_for (publisher b) event) event (invoked b) = true) ->
  let pk := next_id (db w) in
  exists w' date_joined base,
    let row := with_id (created_row dj user_data date_joined) pk in
    CreateUserUseCase.execute dj env user_data w = (Return (view_of_row row), w') /\
    view_of_row row =
      mkUserDTO (Some pk) (c_username user_data)
        (Str.strip (Str.lower (c_email user_data)))
        (Some (or_empty (c_first_name user_data)))
        (Some (or_empty (c_last_name user_data))) true false false false /\
    rows (db w') = <[pk := row]> (rows (db w)) /\
    next_id (db w') = pk + 1 /\
    aggregate_id base = Some pk /\
    published w' =
      published w ++
      [UserCreatedEvent base (c_username user_data)
         (Str.strip (Str.lower (c_email user_data)))].
Proof.
  intros Hu He Hfu Hfe Hphone Hclean Hbus Hcontained pk.
  pose (joined := default_date_joined dj (utcnow env)).
  pose (row := with_id (created_row dj user_data joined) pk).
  assert (view_of_row row =
          mkUserDTO (Some pk) (c_username user_data)
            (Str.strip (Str.lower (c_email user_data)))
            (Some (or_empty (c_first_name user_data)))
            (Some (or_empty (c_last_name user_data))) true false false false) as Hview.
  { unfold view_of_row, row, created_row, with_id. simpl.
    rewrite normalise_idem. reflexivity. }
  assert (row_constructs row = true) as Hrow.
  { unfold row_constructs, row, created_row, with_id. simpl.
    rewrite (match_anchored_nonempty _ _ username_pattern_not_nullable Hu), Hu.
    rewrite (normalised_email_truthy _ He). reflexivity. }
  destruct (to_domain_of_constructible env row Hrow) as (saved & Hsaved & Hdto & _).
  assert (u_id saved = Some pk /\ u_username saved = c_username user_data /\
          u_email saved = Str.strip (Str.lower (c_email user_data))) as (Hid & Hn & Hem).
  { destruct (User_new_inv _ _ Hsaved) as (_ & _ & _ & ->).
    unfold row, created_row, with_id. simpl. rewrite normalise_idem. auto. }
  destruct (publish_if_wired_effect
              (UserCreatedEvent (new_base env (Some pk)) (c_username user_data)
                 (Str.strip (Str.lower (c_email user_data))))
              (mkWorld (mkDb (<[pk := row]> (rows (db w))) (pk + 1)) (bus w)) b Hbus
              (Hcontained
                 (UserCreatedEvent (new_base env (Some pk)) (c_username user_data)
                    (Str.strip (Str.lower (c_email user_data)))) eq_refl))
    as (w' & Hpub & Hdb & Hev).
  exists w', joined, (new_base env (Some pk)). cbv zeta. fold row.
  split; [|split; [exact Hview|]].
  - unfold CreateUserUseCase.execute.
    rewrite (validate_user_creation_ok env (db w) _ _ Hu He Hfu Hfe).
    unfold bind at 1. unfold lift.
    rewrite User_new_ok;
      [|exact (match_anchored_nonempty _ _ username_pattern_not_nullable Hu)
       |exact (match_anchored_nonempty _ _ email_pattern_not_nullable He)
       |exact Hu].
    unfold bind at 1. unfold repository_save, save, _to_django, copy_phone_number.
    cbn [set_email u_id id_truthy]. rewrite Hphone.
    cbn [set_email u_username u_email u_first_name u_last_name u_is_active u_is_staff
         u_is_admin u_is_superuser u_password set_password dj_id dj_username dj_email
         dj_first_name dj_last_name dj_is_active dj_is_staff dj_is_admin dj_is_superuser
         dj_password dj_date_joined dj_phone_number].
    change (set_password dj
              (mkDjangoUser None (c_username user_data)
                 (Str.strip (Str.lower (c_email user_data)))
                 (or_empty (c_first_name user_data)) (or_empty (c_last_name user_data))
                 true false false false ""
                 (default_date_joined dj (utcnow env)) None)
              (Some (c_password user_data)))
      with (created_row dj user_data joined).
    rewrite Hclean. unfold Model_save.
    change (dj_id (created_row dj user_data joined)) with (@None Z). cbn iota.
    fold pk. fold row. rewrite Hsaved. rewrite Hid, Hn, Hem.
    unfold bind. rewrite Hpub. unfold ret. rewrite Hdto. reflexivity.
  - rewrite Hdb. simpl. split; [reflexivity|]. split; [reflexivity|].
    split; [reflexivity|].
    rewrite Hev. unfold published. simpl. reflexivity.
Qed.

Lemma CreateUser_succeeds_witness :
  exists w' date_joined base,
    CreateUserUseCase.execute Reference.django Reference.env
      (mkUserCreateDTO "bob" "Bob@Example.com" "pw" None None)
      (mkWorld Fixture.alice_db (Some (mkBus ServiceContainer._event_publisher [] [])))
    = (Return (mkUserDTO (Some 2) "bob" "bob@example.com" (Some "") (Some "")
                 true false false false), w') /\
    rows (db w') !! 2 =
      Some (with_id (created_row Reference.django
                       (mkUserCreateDTO "bob" "Bob@Example.com" "pw" None None)
                       date_joined) 2) /\
    published w' = [UserCreatedEvent base "bob" "bob@example.com"].
Proof.
  destruct (CreateUser_succeeds Reference.django Reference.env
              (mkUserCreateDTO "bob" "Bob@Example.com" "pw" None None)
              (mkWorld Fixture.alice_db (Some (mkBus ServiceContainer._event_publisher [] [])))
              (mkBus ServiceContainer._event_publisher [] []))
    as (w' & date_joined & base & Hrun & _ & Hrows & _ & _ & Hpub); try reflexivity.
  - intros event Hevent. destruct event; try discriminate Hevent. reflexivity.
  - exists w', date_joined, base. split; [exact Hrun|]. split; [|exact Hpub].
    rewrite Hrows. apply lookup_insert_eq.
Defined.


Lemma get_by_id_absent (env : Env) (d : Db) (pk : Z) :
  rows d !! pk = None -> get_by_id env d (Some pk) = Return None.
Proof. intros H. unfold get_by_id, objects_get_id. rewrite H. reflexivity. Qed.

Lemma get_by_id_row (env : Env) (d : Db) (pk : Z) (r : DjangoUser) :
  rows d !! pk = Some r ->
  get_by_id env d (Some pk) = (try! user := _to_domain env r in Return (Some user)).
Proof. intros H. unfold get_by_id, objects_get_id. rewrite H. reflexivity. Qed.

(** X12: [GetUserUseCase.execute] never changes the world; for a key
    without a row it raises the application's [NotFoundError]; for a row
    that passes the entity's constructor it returns the view of the row; for
    a row that does not, the constructor's [ValueError] comes out as it
    is. *)
Theorem GetUser_outcomes (env : Env) (user_id : Z) (w : World) :
  (rows (db w) !! user_id = None ->
   GetUserUseCase.execute env user_id w
   = (Raise (ApplicationError NotFoundError
               ("User with ID " +:+ Str.of_Z user_id +:+ " not found") []), w)) /\
  (forall r, rows (db w) !! user_id = Some r -> row_constructs r = true ->
             GetUserUseCase.execute env user_id w = (Return (view_of_row r), w)) /\
  (forall r, rows (db w) !! user_id = Some r -> row_constructs r = false ->
             exists msg,
               GetUserUseCase.execute env user_id w = (Raise (ValueError msg), w)).
Proof.
  unfold GetUserUseCase.execute, bind, query. split; [|split].
  - intros H. rewrite (get_by_id_absent env _ _ H). reflexivity.
  - intros r H Hr. rewrite (get_by_id_row env _ _ _ H).
    destruct (to_domain_of_constructible env r Hr) as (user & -> & <- & _).
    reflexivity.
  - intros r H Hr. rewrite (get_by_id_row env _ _ _ H).
    destruct (to_domain_raises_unless_constructible env r Hr) as (msg & ->).
    simpl. eauto.
Qed.

(** X13: [UpdateUserUseCase.execute] raises the application's
    [NotFoundError] for a key without a row, and [ConflictError] tagged
    [email] when the supplied email is non-empty, differs from the user's and
    belongs to an entity with another identity; in both cases nothing is
    stored and nothing is published. *)
Theorem UpdateUser_guards (dj : Django) (env : Env) (user_id : Z)
    (user_data : UserUpdateDTO) (w : World) :
  (rows (db w) !! user_id = None ->
   UpdateUserUseCase.execute dj env user_id user_data w
   = (Raise (ApplicationError NotFoundError
               ("User with ID " +:+ Str.of_Z user_id +:+ " not found") []), w)) /\
  (forall user email other,
      get_by_id env (db w) (Some user_id) = Return (Some user) ->
      up_email user_data = Some email -> email <> "" -> email <> u_email user ->
      get_by_email env (db w) email = Return (Some other) ->
      u_id other <> Some user_id ->
      UpdateUserUseCase.execute dj env user_id user_data w
      = (Raise (ApplicationError ConflictError
                  ("Email '" +:+ email +:+ "' is already taken")
                  [("field", "email")]), w)).
Proof.
  unfold UpdateUserUseCase.execute. split.
  - intros H. unfold bind at 1. unfold query.
    rewrite (get_by_id_absent env _ _ H). reflexivity.
  - intros user email other Hget Hemail Hne Hdiff Hother Hid.
    unfold bind at 1. unfold query at 1. rewrite Hget.
    unfold bind at 1.
    unfold UpdateUserUseCase.check_email, UpdateUserUseCase.email_is_being_updated.
    rewrite Hemail. rewrite (proj2 (truthy_iff email) Hne).
    destruct (String.eqb_spec email (u_email user)) as [Heq|_]; [congruence|].
    cbn [andb negb]. unfold bind, query, UserDomainService.is_email_unique.
    rewrite Hother. cbn [obind]. unfold UserDomainService.is_excluded.
    rewrite (bool_decide_eq_false_2 _ Hid), andb_false_r. reflexivity.
Qed.

(** X14: once the user is found, an email that is empty, absent, equal to
    the user's own, or found only on the user's own non-zero identity passes
    the uniqueness guard of [UpdateUserUseCase]. *)
Theorem UpdateUser_own_email_passes (env : Env) (user_id : Z) (user : User)
    (user_data : UserUpdateDTO) (w : World) :
  up_email user_data = None \/ up_email user_data = Some "" \/
  up_email user_data = Some (u_email user) \/
  (exists email own,
      up_email user_data = Some email /\
      get_by_email env (db w) email = Return (Some own) /\
      u_id own = Some user_id /\ user_id <> 0) ->
  UpdateUserUseCase.check_email env user_id user user_data w = (Return tt, w).
Proof.
  unfold UpdateUserUseCase.check_email, UpdateUserUseCase.email_is_being_updated.
  intros [-> | [-> | [-> | (email & own & -> & Hown & Hid & Hnz)]]]; try reflexivity.
  - rewrite String.eqb_refl, andb_false_r. reflexivity.
  - destruct (Str.truthy email && negb (email =? u_email user)%string); [|reflexivity].
    unfold bind, query, UserDomainService.is_email_unique. rewrite Hown.
    cbn [obind]. unfold UserDomainService.is_excluded.
    rewrite (proj2 (id_truthy_some user_id) Hnz), Hid.
    rewrite bool_decide_eq_true_2 by reflexivity. reflexivity.
Qed.

Lemma UpdateUser_own_email_passes_witness :
  UpdateUserUseCase.check_email Reference.env 1 Fixture.alice
    (mkUserUpdateDTO None None (Some "ALICE@example.com")) Fixture.alice_world
  = (Return tt, Fixture.alice_world).
Proof.
  apply UpdateUser_own_email_passes.
  right. right. right. exists "ALICE@example.com", Fixture.alice.
  split; [reflexivity|]. split; [reflexivity|]. split; [reflexivity|discriminate].
Defined.

End UserUseCaseFacts.

(** ** The user name of an entity *)

Section InvariantFacts.

Import DjangoUserRepository.
Import ValueObjects.

Lemma User_new_username_valid (fields user : User) :
  User_new fields = Return user -> username_valid user = true.
Proof.
  intros H. destruct (User_new_inv _ _ H) as (Hname & _ & Hm & ->).
  unfold username_valid. cbn [set_email u_username]. rewrite Hname, Hm. reflexivity.
Qed.

Lemma found_username_valid (env : Env) (found : outcome DjangoUser) (user : User) :
  match found with
  | Return django_user => try! user := _to_domain env django_user in Return (Some user)
  | Raise DoesNotExist => Return None
  | Raise e => Raise e
  end = Return (Some user) ->
  username_valid user = true.
Proof.
  destruct found as [r|e].
  - destruct (_to_domain env r) as [u|e] eqn:Hd; simpl; [|discriminate].
    intros H. injection H as <-. exact (User_new_username_valid _ _ Hd).
  - destruct e; discriminate.
Qed.

Lemma save_returns_constructed (dj : Django) (env : Env) (d d' : Db) (entity user : User) :
  save dj env d entity = (Return user, d') ->
  exists django_user, _to_domain env django_user = Return user.
Proof.
  unfold save.
  destruct (_to_django dj env d entity) as [r|e]; [|discriminate].
  destruct (full_clean dj d _) as [[]|e]; [|discriminate].
  destruct (Model_save d _) as [r' d''].
  intros H. injection H as H _. eauto.
Qed.

Lemma to_domain_all_username_valid (env : Env) (django_users : list DjangoUser)
    (users : list User) :
  to_domain_all env django_users = Return users ->
  Forall (fun user => username_valid user = true) users.
Proof.
  revert users. induction django_users as [|r rest IH]; intros users; simpl.
  - intros H. injection H as <-. constructor.
  - destruct (_to_domain env r) as [u|e] eqn:Hd; simpl; [|discriminate].
    destruct (to_domain_all env rest) as [us|e]; simpl; [|discriminate].
    intros H. injection H as <-. constructor.
    + exact (User_new_username_valid _ _ Hd).
    + apply IH. reflexivity.
Qed.

(** C5, amended: constructing a [User] with an empty or malformed user
    name, or with an empty email, fails at once with [ValueError]; an entity
    that construction returns has a non-empty user name of the domain's
    shape and the lower-cased, trimmed email; so has every entity that the
    repository hands to a use case, from a look-up, a listing or a save; and
    nothing that a use case does to an entity it holds changes the user
    name: not the assignments of [UpdateUserUseCase], and not the entity's
    own methods. *)
Theorem User_username_stays_valid :
  (forall fields,
      u_username fields = "" \/
      Re.match_anchored username_pattern (u_username fields) = false \/
      u_email fields = "" ->
      exists msg, User_new fields = Raise (ValueError msg)) /\
  (forall fields user,
      User_new fields = Return user ->
      username_valid user = true /\
      u_email user = Str.strip (Str.lower (u_email fields))) /\
  (forall dj env d user,
      (exists pk, get_by_id env d pk = Return (Some user)) \/
      (exists username, get_by_username env d username = Return (Some user)) \/
      (exists email, get_by_email env d email = Return (Some user)) \/
      (exists entity d', save dj env d entity = (Return user, d')) ->
      username_valid user = true) /\
  (forall env d users,
      get_all env d = Return users \/ get_active_users env d = Return users ->
      Forall (fun user => username_valid user = true) users) /\
  (forall user user_data,
      u_username (fst (UpdateUserUseCase.apply_fields user user_data)) = u_username user) /\
  (forall user v, u_username (set_phone_number user v) = u_username user) /\
  (forall user,
      u_username (UserMethods.activate user) = u_username user /\
      u_username (UserMethods.deactivate user) = u_username user /\
      u_username (UserMethods.promote_to_admin user) = u_username user /\
      u_username (UserMethods.demote_from_admin user) = u_username user).
Proof.
  split; [|split; [|split; [|split; [|split; [|split]]]]].
  - intros fields H. unfold User_new, User___post_init__.
    destruct (Str.truthy (u_username fields)) eqn:Hu; simpl; [|eauto].
    destruct (Str.truthy (u_email fields)) eqn:He; simpl; [|eauto].
    destruct (Re.match_anchored username_pattern (u_username fields)) eqn:Hm;
      simpl; [|eauto].
    exfalso. destruct H as [H|[H|H]].
    + rewrite H in Hu. discriminate.
    + discriminate.
    + rewrite H in He. discriminate.
  - intros fields user H. split; [exact (User_new_username_valid _ _ H)|].
    destruct (User_new_inv _ _ H) as (_ & _ & _ & ->). reflexivity.
  - intros dj env d user [[pk H]|[[username H]|[[email H]|(entity & d' & H)]]].
    + exact (found_username_valid env _ user H).
    + exact (found_username_valid env _ user H).
    + exact (found_username_valid env _ user H).
    + destruct (save_returns_constructed _ _ _ _ _ _ H) as (r & Hr).
      exact (User_new_username_valid _ _ Hr).
  - intros env d users [H|H]; exact (to_domain_all_username_valid env _ users H).
  - intros user user_data. unfold UpdateUserUseCase.apply_fields.
    destruct (up_first_name user_data), (up_last_name user_data), (up_email user_data);
      reflexivity.
  - intros user v. reflexivity.
  - intros user. repeat split; reflexivity.
Qed.

End InvariantFacts.

(** ** Subscriptions and the container's wiring *)

Section WiringFacts.

Import InMemoryEventPublisher.

Lemma subscribe_typed_lookup (h : Handler) (t t' : EventType) (p : InMemoryEventPublisher) :
  _subscribers_by_type (subscribe h (Some t) p) !! t' =
  if decide (t = t')
  then Some (default [] (_subscribers_by_type p !! t) ++ [h])
  else _subscribers_by_type p !! t'.
Proof.
  unfold subscribe. cbn [_subscribers_by_type].
  rewrite lookup_insert. destruct (decide (t = t')) as [<-|Hne].
  - destruct (_subscribers_by_type p !! t) as [hs|] eqn:Hl.
    + rewrite Hl. reflexivity.
    + rewrite lookup_insert_eq. reflexivity.
  - destruct (_subscribers_by_type p !! t) as [hs|] eqn:Hl; [reflexivity|].
    apply lookup_insert_ne. exact Hne.
Qed.

(** X15: after [subscribe(handler, event_type)] a publish addresses the
    subscribers it addressed before, in the same order, and the new handler
    as well: after the other subscribers of the event's class when
    [event_type] is that class, after everyone when no class was given, and
    not at all when [event_type] is another class.  [subscribe] leaves the
    history alone.  When the calls of these subscribers are contained, the
    publish returns and has called each of them, in that order. *)
Theorem subscribe_then_publish (h : Handler) (t : option EventType) (b : Bus)
    (event : DomainEvent) :
  let typed := default [] (_subscribers_by_type (publisher b) !! type_of event) in
  let every := _all_subscribers (publisher b) in
  let b' := mkBus (subscribe h t (publisher b)) (invoked b) (logged b) in
  let addressed :=
    match t with
    | Some t' =>
        if decide (t' = type_of event)
        then typed ++ [h] ++ every
        else typed ++ every
    | None => typed ++ every ++ [h]
    end in
  all_contained addressed event (invoked b) = true ->
  _events (subscribe h t (publisher b)) = _events (publisher b) /\
  subscribers_for (subscribe h t (publisher b)) event = addressed /\
  fst (publish event b') = Return tt /\
  invoked (snd (publish event b')) = invoked b ++ calls_of addressed event.
Proof.
  intros typed every b' addressed Hc. split; [destruct t; reflexivity|].
  assert (subscribers_for (subscribe h t (publisher b)) event = addressed) as Hs.
  { unfold subscribers_for, addressed.
    destruct t as [t'|].
    - rewrite subscribe_typed_lookup. fold typed.
      destruct (decide (t' = type_of event)) as [->|Hne]; cbn [default].
      + unfold typed, every, subscribe. simpl. rewrite <- app_assoc. reflexivity.
      + reflexivity.
    - unfold typed, every, subscribe. simpl. rewrite app_assoc. reflexivity. }
  split; [exact Hs|].
  rewrite publish_effect; unfold b'; cbn [publisher invoked]; rewrite Hs; [|exact Hc].
  cbn [fst snd invoked]. split; reflexivity.
Qed.

(** The theorem at the three subscribers of the scenario, the first of which
    raises, and a second registration of the audit. *)
Lemma subscribe_then_publish_witness :
  let event := UserCreatedEvent (new_base Reference.env (Some 1)) "alice" "alice@example.com" in
  let b' := mkBus (subscribe audit_handler (Some UserCreatedEvent_cls) three_subscribers)
              [] [] in
  fst (publish event b') = Return tt /\
  List.map fst (invoked (snd (publish event b'))) =
    [Some "send_welcome_email"; Some "audit"; Some "audit"; Some "metrics"].
Proof.
  intros event b'.
  destruct (subscribe_then_publish audit_handler (Some UserCreatedEvent_cls)
              (mkBus three_subscribers [] []) event) as (_ & _ & Hr & Hi).
  - vm_compute. reflexivity.
  - cbn [publisher invoked logged] in Hr, Hi. unfold b'.
    split; [exact Hr|]. rewrite Hi. vm_compute. reflexivity.
Defined.

(** X16: with the publisher that the container wires, a publish of any
    event returns, calls exactly the handlers registered for the event's
    class (one for created, updated and password-changed events, none for
    activated and deactivated events), and logs no error. *)
Theorem container_wiring (event : DomainEvent) (history : list DomainEvent)
    (calls : list Call) (log : list string) :
  let p := ServiceContainer._event_publisher in
  let b := mkBus (mkPublisher history (_subscribers_by_type p) (_all_subscribers p))
             calls log in
  fst (publish event b) = Return tt /\
  invoked (snd (publish event b)) = calls ++ calls_of (wired_handlers (type_of event)) event /\
  logged (snd (publish event b)) = log /\
  _events (publisher (snd (publish event b))) = history ++ [event].
Proof.
  intros p b.
  assert (subscribers_for (publisher b) event = wired_handlers (type_of event)) as Hs.
  { destruct event; reflexivity. }
  rewrite publish_effect; rewrite Hs; [|destruct event; reflexivity].
  cbn [fst snd invoked logged publisher _events].
  split; [reflexivity|]. split; [reflexivity|]. split; [|reflexivity].
  destruct event; cbn; rewrite ?app_nil_r; reflexivity.
Qed.

End WiringFacts.

(** ** Authentication, continued *)

Section AuthenticationMoreFacts.

Import DjangoUserRepository.

(** X17: the JWT variant fails and answers [None] exactly when the session
    variant does, never changes the world, and on success carries the same
    user view with both token texts of the verified model instance. *)
Theorem JWT_agrees_with_session (dj : Django) (for_user : DjangoUser -> string * string)
    (env : Env) (username password : string) (w : World) :
  AuthenticateUserJWTUseCase.execute dj for_user env username password w =
  (match fst (AuthenticateUserUseCase.execute dj env username password w),
         authenticate dj (db w) username password with
   | Return (Some res), Some django_user =>
       Return (Some (mkAuthenticationResultDTO (r_user res)
                       (Some (snd (for_user django_user)))
                       (Some (fst (for_user django_user))) None))
   | Return (Some res), None => Return None
   | Return None, _ => Return None
   | Raise e, _ => Raise e
   end, w) /\
  snd (AuthenticateUserUseCase.execute dj env username password w) = w.
Proof.
  unfold AuthenticateUserJWTUseCase.execute, AuthenticateUserUseCase.execute.
  destruct (authenticate dj (db w) username password) as [du|]; [|split; reflexivity].
  unfold bind, query.
  destruct (get_by_id env (db w) (dj_id du)) as [[user|]|e]; [| |split; reflexivity];
    [|split; reflexivity].
  destruct (negb (AuthenticationDomainService.can_user_authenticate user));
    [split; reflexivity|].
  destruct (for_user du) as [refresh access]. split; reflexivity.
Qed.

Lemma objects_get_by_sound (p : DjangoUser -> bool) (d : Db) (r : DjangoUser) :
  objects_get_by p d = Return r -> p r = true /\ In r (all_rows d).
Proof.
  unfold objects_get_by.
  destruct (List.filter p (all_rows d)) as [|r' [|r'' l]] eqn:Hf; try discriminate.
  intros H. injection H as ->.
  assert (In r (List.filter p (all_rows d))) as Hin by (rewrite Hf; left; reflexivity).
  apply List.filter_In in Hin. tauto.
Qed.

(** X18: [authenticate_user] answers with an entity only for an active
    stored user that carries exactly the given user name, and its answer
    does not depend on the password hash at all. *)
Theorem authenticate_user_ignores_the_hash (env : Env) (d : Db)
    (username hash1 hash2 : string) :
  AuthenticationDomainService.authenticate_user env d username hash1 =
  AuthenticationDomainService.authenticate_user env d username hash2 /\
  (forall user,
      AuthenticationDomainService.authenticate_user env d username hash1
        = Return (Some user) ->
      u_is_active user = true /\ u_username user = username /\
      exists_by_username d username = true).
Proof.
  split; [reflexivity|].
  intros user. unfold AuthenticationDomainService.authenticate_user, get_by_username.
  destruct (objects_get_by _ d) as [r|e] eqn:Hget.
  - destruct (objects_get_by_sound _ _ _ Hget) as [Hp Hin].
    destruct (_to_domain env r) as [u|e] eqn:Hd; simpl; [|discriminate].
    destruct (u_is_active u) eqn:Ha; simpl; [|discriminate].
    intros H. injection H as <-.
    split; [exact Ha|].
    destruct (User_new_inv _ _ Hd) as (_ & _ & _ & ->). simpl.
    split; [apply String.eqb_eq; exact Hp|].
    unfold exists_by_username. apply existsb_exists. eauto.
  - destruct e; simpl; discriminate.
Qed.

(** X19: after a user with a key is deactivated and saved, the
    authentication use case answers [None] for whatever credentials the
    backend verifies as that user. *)
Theorem deactivated_user_is_refused (dj : Django) (env : Env) (d d' : Db)
    (user saved : User) (pk : Z) (username password : string)
    (django_user : DjangoUser) (publisher_bus : option Bus) :
  db_wf d -> u_id user = Some pk -> pk <> 0 ->
  save dj env d (UserMethods.deactivate user) = (Return saved, d') ->
  authenticate dj d' username password = Some django_user ->
  dj_id django_user = Some pk ->
  AuthenticateUserUseCase.execute dj env username password (mkWorld d' publisher_bus)
  = (Return None, mkWorld d' publisher_bus).
Proof.
  intros Hwf Hid Hnz Hsave Hauth Hdj.
  destruct (save_cases dj env d d' _ _ Hwf Hsave)
    as [[_ [e He]]|(base & Hrows & _ & _ & Hr)]; [discriminate|].
  assert (save_key d (UserMethods.deactivate user) = pk) as Hkey.
  { unfold save_key. cbn [UserMethods.deactivate set_is_active u_id]. rewrite Hid.
    rewrite (proj2 (id_truthy_some pk) Hnz). reflexivity. }
  rewrite Hkey in *. symmetry in Hr.
  unfold AuthenticateUserUseCase.execute. cbn [db]. rewrite Hauth, Hdj.
  unfold bind, query, get_by_id, objects_get_id. cbn [db].
  rewrite Hrows, lookup_insert_eq, Hr. cbn [obind].
  destruct (User_new_inv _ _ Hr) as (_ & _ & _ & ->).
  reflexivity.
Qed.

Lemma deactivated_user_is_refused_witness :
  let d' := snd (save Fixture.trusting_django Reference.env Fixture.alice_db
                   (UserMethods.deactivate Fixture.alice)) in
  AuthenticateUserUseCase.execute Fixture.trusting_django Reference.env "alice" "anything"
    (mkWorld d' None)
  = (Return None, mkWorld d' None).
Proof.
  intros d'.
  destruct (save Fixture.trusting_django Reference.env Fixture.alice_db
              (UserMethods.deactivate Fixture.alice)) as [r d0] eqn:Hsave.
  assert (exists saved django_user,
             r = Return saved /\
             authenticate Fixture.trusting_django d0 "alice" "anything" = Some django_user /\
             dj_id django_user = Some 1) as (saved & django_user & -> & Hauth & Hdj).
  { vm_compute in Hsave. injection Hsave as <- <-.
    eexists. eexists. split; [reflexivity|]. split; vm_compute; reflexivity. }
  subst d'. cbn [snd].
  apply (deactivated_user_is_refused Fixture.trusting_django Reference.env
           Fixture.alice_db d0 Fixture.alice saved 1 "alice" "anything" django_user None
           alice_db_wf eq_refl); [discriminate|exact Hsave|exact Hauth|exact Hdj].
Defined.

End AuthenticationMoreFacts.

(** ** The views *)

Section ViewFacts.

Import DjangoUserRepository.

Lemma to_domain_error (env : Env) (r : DjangoUser) (e : exn) :
  _to_domain env r = Raise e -> exists msg, e = ValueError msg.
Proof.
  intros H. destruct (row_constructs r) eqn:Hr.
  - destruct (to_domain_of_constructible env r Hr) as (user & Hu & _). congruence.
  - destruct (to_domain_raises_unless_constructible env r Hr) as (msg & Hm).
    rewrite Hm in H. injection H as <-. eauto.
Qed.

Lemma get_by_id_error (env : Env) (d : Db) (pk : option Z) (e : exn) :
  get_by_id env d pk = Raise e -> exists msg, e = ValueError msg.
Proof.
  unfold get_by_id. destruct (objects_get_id d pk) as [r|e'] eqn:Hget.
  - destruct (_to_domain env r) as [user|e''] eqn:Hd; simpl; [discriminate|].
    intros H. injection H as <-. exact (to_domain_error env r _ Hd).
  - rewrite (objects_get_id_raises _ _ _ Hget). discriminate.
Qed.

Lemma get_by_email_error (env : Env) (d : Db) (email : string) (e : exn) :
  get_by_email env d email = Raise e ->
  is_application_error e = false /\ is_exception e = true.
Proof.
  unfold get_by_email, objects_get_by.
  destruct (List.filter _ (all_rows d)) as [|r [|r' l]]; try discriminate.
  - destruct (_to_domain env r) as [user|e'] eqn:Hd; simpl; [discriminate|].
    intros H. injection H as <-.
    destruct (to_domain_error env r _ Hd) as (msg & ->). split; reflexivity.
  - intros H. injection H as <-. split; reflexivity.
Qed.

(** How [UpdateUserUseCase.execute] ends. *)
Lemma UpdateUser_execute_error (dj : Django) (env : Env) (user_id : Z)
    (user_data : UserUpdateDTO) (w : World) :
  exists e,
    UpdateUserUseCase.execute dj env user_id user_data w = (Raise e, w) /\
    ((rows (db w) !! user_id = None /\ e = not_found user_id) \/
     (is_Some (rows (db w) !! user_id) /\
      ((exists message, e = ApplicationError ConflictError message [("field", "email")]) \/
       (is_application_error e = false /\ is_exception e = true)))).
Proof.
  unfold UpdateUserUseCase.execute, bind, query.
  destruct (rows (db w) !! user_id) as [r|] eqn:Hrow.
  2:{ rewrite (get_by_id_absent env _ _ Hrow). unfold raise. eauto. }
  destruct (get_by_id env (db w) (Some user_id)) as [[user|]|e] eqn:Hget.
  - unfold UpdateUserUseCase.check_email.
    destruct (UpdateUserUseCase.email_is_being_updated user user_data) as [email|].
    + unfold bind, query, UserDomainService.is_email_unique.
      destruct (get_by_email env (db w) email) as [existing|e] eqn:Hmail; simpl.
      * destruct (match existing with
                  | Some existing_user =>
                      if UserDomainService.is_excluded existing_user (Some user_id)
                      then Return true else Return false
                  | None => Return true
                  end) as [[|]|e] eqn:Hu; simpl.
        -- destruct (UpdateUserUseCase.apply_fields user user_data).
           unfold lift, UserUpdateDTO_get_phone_number. eexists. split; [reflexivity|].
           right. split; [eauto|]. right. split; reflexivity.
        -- unfold raise. eexists. split; [reflexivity|]. right. split; [eauto|]. left. eauto.
        -- exfalso. destruct existing as [u|]; [|discriminate].
           destruct (UserDomainService.is_excluded u (Some user_id)); discriminate.
      * eexists. split; [reflexivity|]. right. split; [eauto|]. right.
        exact (get_by_email_error env _ _ _ Hmail).
    + unfold ret. destruct (UpdateUserUseCase.apply_fields user user_data).
      unfold lift, UserUpdateDTO_get_phone_number. eexists. split; [reflexivity|].
      right. split; [eauto|]. right. split; reflexivity.
  - rewrite (get_by_id_row env _ _ _ Hrow) in Hget.
    destruct (_to_domain env r); discriminate.
  - destruct (get_by_id_error env _ _ _ Hget) as (msg & ->).
    eexists. split; [reflexivity|]. right. split; [eauto|]. right. split; reflexivity.
Qed.

(** X22: [UserMeApi.post] returns a response, never answers 200 and never
    changes the table or the history: it answers 404 when the user's row is
    missing, and 409 or 500 when it is there. *)
Theorem UserMeApi_post_statuses (dj : Django) (env : Env) (user_id : Z)
    (user_data : UserUpdateDTO) (w : World) :
  exists response,
    UserMeApi.post dj env user_id user_data w = (Return response, w) /\
    (rows (db w) !! user_id = None ->
     response =
       mkResponse [("message", JStr ("User with ID " +:+ Str.of_Z user_id +:+ " not found"));
                   ("extra", JDict [])] 404) /\
    (is_Some (rows (db w) !! user_id) ->
     status_code response = 409 \/ status_code response = 500).
Proof.
  destruct (UpdateUser_execute_error dj env user_id user_data w) as (e & Hrun & Hkind).
  unfold UserMeApi.post. rewrite Hrun.
  destruct Hkind as [[Hnone ->]|[Hsome Hkind]].
  - eexists. split; [reflexivity|].
    split; [reflexivity|]. rewrite Hnone. intros [r Hr]. discriminate.
  - destruct Hkind as [[message ->]|[Hnot Hexc]].
    + eexists. split; [reflexivity|].
      split; [intros Hnone; rewrite Hnone in Hsome; destruct Hsome; discriminate|].
      intros _. left. reflexivity.
    + rewrite Hexc. eexists. split; [reflexivity|].
      split; [intros Hnone; rewrite Hnone in Hsome; destruct Hsome; discriminate|].
      intros _. right. destruct e; try reflexivity. discriminate.
Qed.

(** How [ChangePasswordUseCase.execute] ends. *)
Lemma ChangePassword_execute_error (dj : Django) (env : Env) (user_id : Z)
    (old_password new_password : string) (w : World) :
  exists e,
    ChangePasswordUseCase.execute dj env user_id old_password new_password w
      = (Raise e, w) /\
    ((rows (db w) !! user_id = None /\ e = not_found user_id) \/
     (is_Some (rows (db w) !! user_id) /\
      is_application_error e = false /\ is_exception e = true)).
Proof.
  unfold ChangePasswordUseCase.execute, bind, query.
  destruct (rows (db w) !! user_id) as [r|] eqn:Hrow.
  2:{ rewrite (get_by_id_absent env _ _ Hrow). unfold raise. eauto. }
  rewrite (get_by_id_row env _ _ _ Hrow).
  destruct (_to_domain env r) as [user|e] eqn:Hd; simpl.
  - unfold lift, User_check_password. eexists. split; [reflexivity|].
    right. split; [eauto|split; reflexivity].
  - destruct (to_domain_error env r _ Hd) as (msg & ->).
    eexists. split; [reflexivity|]. right. split; [eauto|split; reflexivity].
Qed.

(** X23: [ChangePassword.post] returns a response, never answers 200 and
    never changes the table or the history: it answers 404 when the user's
    row is missing and 500 when it is there, whatever the passwords. *)
Theorem ChangePassword_post_statuses (dj : Django) (env : Env) (user_id : Z)
    (old_password password1 : string) (w : World) :
  exists response,
    ChangePasswordView.post dj env user_id old_password password1 w
      = (Return response, w) /\
    (rows (db w) !! user_id = None -> status_code response = 404) /\
    (is_Some (rows (db w) !! user_id) -> status_code response = 500).
Proof.
  destruct (ChangePassword_execute_error dj env user_id old_password password1 w)
    as (e & Hrun & Hkind).
  unfold ChangePasswordView.post. rewrite Hrun.
  destruct Hkind as [[Hnone ->]|(Hsome & Hnot & Hexc)].
  - eexists. split; [reflexivity|].
    split; [reflexivity|]. rewrite Hnone. intros [r Hr]. discriminate.
  - rewrite Hexc. eexists. split; [reflexivity|].
    split; [intros Hnone; rewrite Hnone in Hsome; destruct Hsome; discriminate|].
    intros _. destruct e; try reflexivity. discriminate.
Qed.

(** X24: [UserMeApi.get] answers 200 with the profile of a row that passes
    the entity's constructor and 404 with the constructor's message for a
    row that does not; for a missing row the application's [NotFoundError]
    is not caught and leaves the view. *)
Theorem UserMeApi_get_outcomes (env : Env) (user_id : Z) (w : World) :
  (rows (db w) !! user_id = None ->
   UserMeApi.get env user_id w = (Raise (not_found user_id), w)) /\
  (forall r, rows (db w) !! user_id = Some r -> row_constructs r = true ->
             UserMeApi.get env user_id w
             = (Return (mkResponse (UserMeApi.profile (view_of_row r)) 200), w)) /\
  (forall r, rows (db w) !! user_id = Some r -> row_constructs r = false ->
             exists msg,
               UserMeApi.get env user_id w
               = (Return (mkResponse [("error", JStr msg)] 404), w)).
Proof.
  unfold UserMeApi.get, GetUserUseCase.execute, bind, query. split; [|split].
  - intros H. rewrite (get_by_id_absent env _ _ H). reflexivity.
  - intros r H Hr. rewrite (get_by_id_row env _ _ _ H).
    destruct (to_domain_of_constructible env r Hr) as (user & -> & <- & _).
    reflexivity.
  - intros r H Hr. rewrite (get_by_id_row env _ _ _ H).
    destruct (to_domain_raises_unless_constructible env r Hr) as (msg & ->).
    simpl. eauto.
Qed.

End ViewFacts.

(** ** Credentials and user names, continued *)

Section MoreFacts.

Import DjangoUserRepository.
Import ValueObjects.

(** The overwrite at alice's row and an entity that carries a new
    password. *)
Lemma save_overwrites_password_witness :
  let '(r, d') :=
    save Reference.django Reference.env Fixture.alice_db
      (mkUser (Some 1) None 0 "alice" "alice@example.com" None None
         true false false false (Some "battery staple") None) in
  stored_password d' 1 = Some "plain$battery staple".
Proof.
  destruct (save Reference.django Reference.env Fixture.alice_db
              (mkUser (Some 1) None 0 "alice" "alice@example.com" None None
                 true false false false (Some "battery staple") None))
    as [r d'] eqn:Hsave.
  destruct (save_overwrites_password Reference.django Reference.env Fixture.alice_db d'
              (mkUser (Some 1) None 0 "alice" "alice@example.com" None None
                 true false false false (Some "battery staple") None)
              1 Fixture.alice_row r eq_refl eq_refl) as [(e & -> & _)|Hpw].
  - discriminate.
  - reflexivity.
  - reflexivity.
  - exact Hsave.
  - vm_compute in Hsave. discriminate.
  - exact Hpw.
Defined.

(** A user name that the pattern admits starts with a letter, a digit or an
    underscore. *)
Lemma username_head (s : string) :
  Re.match_anchored username_pattern s = true ->
  exists c t, s = String c t /\ word_char c = true.
Proof.
  intros Hm.
  assert (forall u, Re.Matches username_pattern u ->
                    exists c t, u = String c t /\ word_char c = true) as Hhead.
  { intros u Hu. unfold username_pattern, Re.Plus in Hu.
    inversion Hu as [| |? ? s1 s2 H1 _| | | |]; subst.
    inversion H1 as [| |? ? s11 s12 H11 _| | | |]; subst.
    inversion H11 as [|? c Hc| | | | |]; subst.
    exists c, (s12 +:+ s2). split; [reflexivity|exact Hc]. }
  apply match_anchored_spec in Hm as [Hm|(s' & -> & Hm)].
  - apply Hhead. exact Hm.
  - destruct (Hhead s' Hm) as (c & t & -> & Hc).
    exists c, (t +:+ String (ascii_of_N 10) ""). split; [reflexivity|exact Hc].
Qed.

(** X29: [Username] accepts a value exactly when it matches the pattern
    as it stands, keeps an accepted value verbatim (no trimming, no change of
    case), and an accepted value starts with a letter, a digit or an
    underscore. *)
Theorem Username_new_keeps_value (s : string) :
  ((exists u, Username_new s = Return u) <->
   Re.match_anchored username_pattern s = true) /\
  (forall u, Username_new s = Return u ->
             username_value u = s /\
             exists c t, s = String c t /\ word_char c = true).
Proof.
  split.
  - split.
    + intros [u Hu]. unfold Username_new in Hu.
      destruct (Str.truthy s); simpl in Hu; [|discriminate].
      destruct (Re.match_anchored username_pattern s); [reflexivity|discriminate].
    + intros Hm. rewrite (Username_new_ok s Hm). eauto.
  - intros u Hu. unfold Username_new in Hu.
    destruct (Str.truthy s); simpl in Hu; [|discriminate].
    destruct (Re.match_anchored username_pattern s) eqn:Hm; simpl in Hu; [|discriminate].
    injection Hu as <-. split; [reflexivity|exact (username_head s Hm)].
Qed.

Lemma to_domain_no_password (env : Env) (r : DjangoUser) (user : User) :
  _to_domain env r = Return user -> u_password user = None.
Proof.
  intros H. destruct (User_new_inv _ _ H) as (_ & _ & _ & ->). reflexivity.
Qed.

Lemma obind_some_inv (m : outcome User) (user : User) :
  (try! u := m in Return (Some u)) = Return (Some user) -> m = Return user.
Proof. destruct m; simpl; congruence. Qed.

(** X30: no entity that the repository hands out carries a password:
    what [get_by_id], [get_by_username], [get_by_email] and [save] return
    has [password] unset, whatever the row holds. *)
Theorem repository_never_returns_a_password (dj : Django) (env : Env) (d : Db)
    (user : User) :
  (forall pk, get_by_id env d pk = Return (Some user) -> u_password user = None) /\
  (forall username,
      get_by_username env d username = Return (Some user) -> u_password user = None) /\
  (forall email, get_by_email env d email = Return (Some user) -> u_password user = None) /\
  (forall entity d', save dj env d entity = (Return user, d') -> u_password user = None).
Proof.
  split; [|split; [|split]].
  - intros pk. unfold get_by_id.
    destruct (objects_get_id d pk) as [r|e].
    + intros H. apply obind_some_inv in H. exact (to_domain_no_password env r user H).
    + destruct e; discriminate.
  - intros username. unfold get_by_username.
    destruct (objects_get_by _ d) as [r|e].
    + intros H. apply obind_some_inv in H. exact (to_domain_no_password env r user H).
    + destruct e; discriminate.
  - intros email. unfold get_by_email.
    destruct (objects_get_by _ d) as [r|e].
    + intros H. apply obind_some_inv in H. exact (to_domain_no_password env r user H).
    + destruct e; discriminate.
  - intros entity d'. unfold save.
    destruct (_to_django dj env d entity) as [row|e]; [|discriminate].
    destruct (full_clean dj d _) as [[]|e]; [|discriminate].
    destruct (Model_save d _) as [row' d0].
    intros H. injection H as H _. exact (to_domain_no_password env row' user H).
Qed.

End MoreFacts.
